(** * dash-windtopo: the reactive core of [app.py]

    A shallow embedding of the wind-observation viewer: the frequency
    aggregation that runs when the module is loaded, the four Dash
    callbacks, and the event loop that connects them.

    Conventions.
    - pandas columns of dtype float64 are lists of binary64 floats
      ([PrimFloat.float]); a missing value is [nan].  A signal column may
      also hold Python strings (dtype object), see [cell].
    - Python exceptions are values of [exn], carried by [result].
    - Python dicts that travel through [dcc.Store] and [relayoutData] are
      [gmap string json].
    - Station ids are strings: the [ID] columns have dtype object.
    - What [app.py] calls in pandas and plotly without defining it
      ([Series.mean], [DataFrame.sort_values] with its default [kind],
      [Figure.update_layout] on a stored centre and zoom) is a parameter
      of the development, see [library]. *)

From Stdlib Require Import ZArith List String Ascii Permutation Sorted Lia OrderedTypeEx.
From Stdlib Require Import PrimFloat Uint63 SpecFloat FloatOps FloatAxioms.
From stdpp Require Import gmap strings list fin_maps.

Set Warnings "-inexact-float,-register-all".
Local Open Scope string_scope.
Local Open Scope list_scope.

(** ** Python values *)

Inductive exn : Set := TypeError | KeyError | IndexError | ValueError.

Inductive result (A : Type) : Type :=
| Ok (a : A)
| Raise (e : exn).
Arguments Ok {A} a.
Arguments Raise {A} e.

#[global] Instance result_ret : MRet result := fun A a => Ok a.

#[global] Instance result_bind : MBind result := fun A B k m =>
  match m with
  | Ok a => k a
  | Raise e => Raise e
  end.

Fixpoint traverse {A B : Type} (f : A -> result B) (l : list A) : result (list B) :=
  match l with
  | [] => Ok []
  | a :: l' => b ← f a; bs ← traverse f l'; Ok (b :: bs)
  end.

(** JSON values held by the client-side stores. *)
Inductive json : Type :=
| JNull
| JNum (x : float)
| JStr (s : string)
| JObj (fields : list (string * json)).

(** [not d] for a value that is [None] or a dict. *)
Definition falsy (d : option (gmap string json)) : bool :=
  match d with
  | None => true
  | Some m => match map_to_list m with [] => true | _ :: _ => false end
  end.

(** [d.get(key, default)] *)
Definition get (d : gmap string json) (key : string) (default : json) : json :=
  match d !! key with
  | Some v => v
  | None => default
  end.

(** An entry of a signal column: a float64 (possibly [nan]) or, when the
    column has dtype object, a Python string. *)
Inductive cell : Type :=
| Num (x : float)
| Str (s : string).

(** [numpy.int64 / int]: both operands are converted to float64. *)
Definition float_of_count (n : nat) : float :=
  PrimFloat.of_uint63 (Uint63.of_Z (Z.of_nat n)).

(** [c >= k] for one entry of a column; a string against a number raises. *)
Definition cell_ge (k : float) (c : cell) : result bool :=
  match c with
  | Num x => Ok (PrimFloat.leb k x)
  | Str _ => Raise TypeError
  end.

(** [series >= k], element by element. *)
Definition Series_ge (s : list cell) (k : float) : result (list bool) :=
  traverse (cell_ge k) s.

(** [mask.sum()] *)
Definition Series_sum (mask : list bool) : nat :=
  length (List.filter (fun b => b) mask).

(** [series.notna()], entry by entry. *)
Definition notna (x : float) : bool := negb (PrimFloat.is_nan x).

(** ** Tables *)

Module Loc.
Record row : Type := { ID : string; LATD : float; LOND : float }.
End Loc.

Module Obs.
Record row : Type :=
  { ID : string;
    VALIDTIME : string;
    ft : Z;
    ObsGustSpd1h : cell;
    wt_operation : cell;
    arc_gust_pred : cell }.
End Obs.

Module Freq.
Record row : Type :=
  { ID : string; obs_freq : float; wt_freq : float; arc_freq : float }.
End Freq.

Module Plot.
Record row : Type :=
  { ID : string; obs_freq : float; wt_freq : float; arc_freq : float;
    LATD : float; LOND : float }.
End Plot.

(** ** Frequency aggregation (module level, lines 27-41) *)

(** [calc_freq(group, column)] *)
Definition calc_freq (group : list Obs.row) (column : Obs.row -> cell) : result float :=
  mask ← Series_ge (map column group) 25%float;
  Ok (PrimFloat.div (float_of_count (Series_sum mask)) (float_of_count (length group))).

(** The keys of [groupby("ID")] for a column of strings: each id once, in
    ascending order. *)
Fixpoint insert_key (k : string) (ks : list string) : list string :=
  match ks with
  | [] => [k]
  | k' :: ks' =>
      match String.compare k k' with
      | Lt => k :: ks
      | Eq => ks
      | Gt => k' :: insert_key k ks'
      end
  end.

Definition group_keys (df : list Obs.row) : list string :=
  fold_right insert_key [] (map Obs.ID df).

Definition group_of (df : list Obs.row) (k : string) : list Obs.row :=
  List.filter (fun r => String.eqb (Obs.ID r) k) df.

(** [data_df.groupby("ID")]: one group per key, rows in table order. *)
Definition groupby_ID (df : list Obs.row) : list (string * list Obs.row) :=
  map (fun k => (k, group_of df k)) (group_keys df).

(** The lambda applied to each group, with the key put back by
    [reset_index]. *)
Definition freq_row (k : string) (g : list Obs.row) : result Freq.row :=
  o ← calc_freq g Obs.ObsGustSpd1h;
  w ← calc_freq g Obs.wt_operation;
  a ← calc_freq g Obs.arc_gust_pred;
  Ok {| Freq.ID := k; Freq.obs_freq := o; Freq.wt_freq := w; Freq.arc_freq := a |}.

(** On a table with no row [apply] yields a frame that already has the
    column [ID], and [reset_index] raises. *)
Definition freq_df (data_df : list Obs.row) : result (list Freq.row) :=
  match data_df with
  | [] => Raise ValueError
  | _ :: _ => traverse (fun kg => freq_row (fst kg) (snd kg)) (groupby_ID data_df)
  end.

(** [left.merge(right, on="ID", how="left")]: every left row is kept, once
    per matching right row, and once with missing coordinates when no
    right row matches. *)
Definition joined (f : Freq.row) (lat lon : float) : Plot.row :=
  {| Plot.ID := Freq.ID f; Plot.obs_freq := Freq.obs_freq f;
     Plot.wt_freq := Freq.wt_freq f; Plot.arc_freq := Freq.arc_freq f;
     Plot.LATD := lat; Plot.LOND := lon |}.

Definition matches (right : list Loc.row) (f : Freq.row) : list Loc.row :=
  List.filter (fun l => String.eqb (Loc.ID l) (Freq.ID f)) right.

Definition merge_row (right : list Loc.row) (f : Freq.row) : list Plot.row :=
  match matches right f with
  | [] => [joined f nan nan]
  | ms => map (fun l => joined f (Loc.LATD l) (Loc.LOND l)) ms
  end.

Definition merge_left (left : list Freq.row) (right : list Loc.row) : list Plot.row :=
  flat_map (merge_row right) left.

(** The module's global tables once loading has succeeded. *)
Record tables : Type :=
  { loc_df : list Loc.row;
    data_df : list Obs.row;
    plot_df : list Plot.row }.

Definition high_freq_df (py : tables) : list Plot.row :=
  List.filter (fun r => PrimFloat.leb 0.004%float (Plot.obs_freq r)) (plot_df py).

Definition low_freq_df (py : tables) : list Plot.row :=
  List.filter (fun r => PrimFloat.ltb (Plot.obs_freq r) 0.004%float) (plot_df py).

(** Lines 22-41: an exception here stops the module from loading. *)
Definition startup (loc : list Loc.row) (data : list Obs.row) : result tables :=
  freq ← freq_df data;
  Ok {| loc_df := loc; data_df := data; plot_df := merge_left freq loc |}.

(** ** The map figure (lines 57-79) *)

Record trace : Type :=
  { lat : list float;
    lon : list float;
    marker_color : string;
    marker_opacity : list float;
    text : list string;
    name : string }.

Record figure : Type :=
  { data : list trace;
    mapbox_zoom : json;
    mapbox_center : json }.

(** [sid in selected_ids] *)
Definition contains (selected_ids : list string) (sid : string) : bool :=
  existsb (String.eqb sid) selected_ids.

Definition scattermapbox (selected_ids : list string)
    (df : list Plot.row) (color name : string) : trace :=
  let opacities :=
    map (fun sid => if contains selected_ids sid then 1.0%float else 0.4%float)
        (map Plot.ID df) in
  {| lat := map Plot.LATD df;
     lon := map Plot.LOND df;
     marker_color := color;
     marker_opacity := opacities;
     text := map Plot.ID df;
     name := name |}.

(** What [app.py] calls in pandas and plotly and does not define:
    - [series.mean()] of a float64 column;
    - [site_df.sort_values("VALIDTIME")];
    - [map_fig.update_layout(mapbox_center=center, mapbox_zoom=zoom)] on
      the figure of [create_map], which may refuse the payload. *)
Record library : Type :=
  { Series_mean : list float -> float;
    sort_values : list Obs.row -> list Obs.row;
    update_layout : figure -> json -> json -> result figure }.

(** The centre that [create_map] and [save_map_state] both compute. *)
Definition mean_center (py : tables) (lib : library) : json :=
  JObj [("lat", JNum (Series_mean lib (map Loc.LATD (loc_df py))));
        ("lon", JNum (Series_mean lib (map Loc.LOND (loc_df py))))].

Definition create_map (py : tables) (lib : library) (selected_ids : list string) : figure :=
  {| data := [scattermapbox selected_ids (low_freq_df py) "blue" "Low Frequency";
              scattermapbox selected_ids (high_freq_df py) "red" "High Frequency"];
     mapbox_zoom := JNum 7%float;
     mapbox_center := mean_center py lib |}.

(** ** Callbacks *)

(** Lines 113-120. *)
Definition update_map_figure (py : tables) (lib : library)
    (selected_ids : list string) (map_state : option (gmap string json))
    : result figure :=
  let map_fig := create_map py lib selected_ids in
  match map_state with
  | Some st =>
      if falsy map_state then Ok map_fig
      else match st !! "center", st !! "zoom" with
           | Some center, Some zoom => update_layout lib map_fig center zoom
           | _, _ => Ok map_fig
           end
  | None => Ok map_fig
  end.

(** Lines 127-141. *)
Definition save_map_state (py : tables) (lib : library)
    (relayout_data current_state : option (gmap string json))
    : option (gmap string json) :=
  match relayout_data with
  | Some rd =>
      if falsy relayout_data then current_state
      else
        let current_state :=
          match current_state with
          | None => ∅
          | Some st => st
          end in
        let zoom := get rd "mapbox.zoom" (get current_state "zoom" (JNum 7%float)) in
        let center :=
          get rd "mapbox.center" (get current_state "center" (mean_center py lib)) in
        Some (<["zoom" := zoom]> (<["center" := center]> ∅))
  | None => current_state
  end.

(** [clickData]: a dict whose ['points'] entry, when present, is a list of
    dicts.  A dict without ['points'] (the empty dict included) is
    [points := None]; a point without ['text'] is [point_text := None]. *)
Record point : Type := { point_text : option string }.
Record click : Type := { points : option (list point) }.

(** Dash's [ctx.triggered_id]: the component of the first of the inputs
    whose change set the callback off, [None] when there is none.  An
    input is a pair of a component id and a property. *)
Definition ctx_triggered_id (triggered : list (string * string)) : option string :=
  match triggered with
  | [] => None
  | (component, _) :: _ => Some component
  end.

(** Lines 150-158.  [triggered_id] is the value of [ctx.triggered_id]. *)
Definition update_station_list (triggered_id : option string)
    (clickData : option click) (reset_clicks : Z) (selected_ids : list string)
    : result (list string) :=
  if decide (triggered_id = Some "reset-button") then Ok []
  else
    match clickData with
    | None => Ok selected_ids
    | Some cd =>
        match points cd with
        | None => Ok selected_ids
        | Some [] => Raise IndexError
        | Some (p :: _) =>
            match point_text p with
            | None => Raise KeyError
            | Some clicked_id =>
                if contains selected_ids clicked_id then Ok selected_ids
                else Ok (selected_ids ++ [clicked_id])
            end
        end
    end.

(** Lines 44-50. *)
Definition cases : list (string * (string * string)) :=
  [("Case 1: 2025/01/29 - 2025/02/02", ("2025-01-29", "2025-02-02"));
   ("Case 2: 2025/02/13 - 2025/02/15", ("2025-02-13", "2025-02-15"));
   ("Case 3: 2025/02/18 - 2025/02/20", ("2025-02-18", "2025-02-20"));
   ("Case 4: 2025/03/13 - 2025/03/18", ("2025-03-13", "2025-03-18"));
   ("Case 5: 2025/03/25 - 2025/03/28", ("2025-03-25", "2025-03-28"))].

(** [cases[selected_case]] *)
Fixpoint cases_getitem (registry : list (string * (string * string)))
    (selected_case : string) : result (string * string) :=
  match registry with
  | [] => Raise KeyError
  | (label, window) :: rest =>
      if String.eqb label selected_case then Ok window
      else cases_getitem rest selected_case
  end.

(** The time-series figures. *)
Record scatter : Type :=
  { x : list string; y : list cell; scatter_name : string }.

Record shape : Type :=
  { x0 : string; x1 : string; y0 : float; y1 : float }.

Record chart : Type :=
  { title : string; series : list scatter; shapes : list shape }.

Inductive children : Type :=
| Div (message : string)
| Graphs (figures : list chart).

(** [series.min()] and [series.max()] of a column of strings. *)
Definition Series_min (s : list string) : string :=
  match s with
  | [] => EmptyString
  | v :: s' => fold_left (fun m w => if String.leb m w then m else w) s' v
  end.

Definition Series_max (s : list string) : string :=
  match s with
  | [] => EmptyString
  | v :: s' => fold_left (fun m w => if String.leb w m then m else w) s' v
  end.

Section Callbacks.

(** The module's tables and the library. *)
Variable py : tables.
Variable lib : library.

(** Lines 174-177: the rows behind the chart of one station. *)
Definition site_df (point_id start_date end_date : string) : list Obs.row :=
  let site_df := List.filter (fun r => String.eqb (Obs.ID r) point_id) (data_df py) in
  let site_df :=
    List.filter (fun r => String.leb start_date (Obs.VALIDTIME r)
                          && String.leb (Obs.VALIDTIME r) end_date) site_df in
  let site_df := List.filter (fun r => Z.leb 0 (Obs.ft r) && Z.leb (Obs.ft r) 23) site_df in
  sort_values lib site_df.

(** Lines 179-206: the figure drawn from those rows. *)
Definition site_chart (point_id selected_case : string) (site_df : list Obs.row) : chart :=
  match site_df with
  | [] =>
      {| title := ("No data for " ++ point_id ++ " during " ++ selected_case)%string;
         series := []; shapes := [] |}
  | _ :: _ =>
      let t := map Obs.VALIDTIME site_df in
      {| title := point_id;
         series := [ {| x := t; y := map Obs.ObsGustSpd1h site_df; scatter_name := "Obs" |};
                     {| x := t; y := map Obs.wt_operation site_df; scatter_name := "WT" |};
                     {| x := t; y := map Obs.arc_gust_pred site_df; scatter_name := "ARC" |} ];
         shapes := map (fun threshold =>
                          {| x0 := Series_min t; x1 := Series_max t;
                             y0 := threshold; y1 := threshold |})
                       [20%float; 25%float] |}
  end.

(** Lines 166-210. *)
Definition update_timeseries (station_ids : list string) (selected_case : string)
    : result children :=
  match station_ids with
  | [] => Ok (Div "地点を選んでください")
  | _ :: _ =>
      window ← cases_getitem cases selected_case;
      let start_date := fst window in
      let end_date := snd window in
      Ok (Graphs (map (fun point_id =>
                         site_chart point_id selected_case
                                    (site_df point_id start_date end_date))
                      station_ids))
  end.

(** ** The event loop

    The properties of the layout's components that the callbacks read
    and write. *)
Record app : Type :=
  { station_map_figure : figure;
    station_map_clickData : option click;
    station_map_relayoutData : option (gmap string json);
    map_state_data : option (gmap string json);
    selected_station_ids_data : list string;
    reset_button_n_clicks : Z;
    case_selector_value : string;
    timeseries_container_children : children }.

Inductive event : Type :=
| markerClicked (cd : click)
| resetClicked
| caseWindowChanged (label : string)
| viewportChanged (partial : gmap string json).

(** A callback that raises leaves its output as it was. *)
Definition or_keep {A : Type} (r : result A) (old : A) : A :=
  match r with
  | Ok a => a
  | Raise _ => old
  end.

(** [selected-station-ids.data] has been written: the two callbacks that
    take it as [Input] run, each writing its own [Output]. *)
Definition selection_written (st : app) (selected_ids : list string) : app :=
  {| station_map_figure :=
       or_keep (update_map_figure py lib selected_ids (map_state_data st))
               (station_map_figure st);
     station_map_clickData := station_map_clickData st;
     station_map_relayoutData := station_map_relayoutData st;
     map_state_data := map_state_data st;
     selected_station_ids_data := selected_ids;
     reset_button_n_clicks := reset_button_n_clicks st;
     case_selector_value := case_selector_value st;
     timeseries_container_children :=
       or_keep (update_timeseries selected_ids (case_selector_value st))
               (timeseries_container_children st) |}.

Definition set_clickData (st : app) (cd : click) : app :=
  {| station_map_figure := station_map_figure st;
     station_map_clickData := Some cd;
     station_map_relayoutData := station_map_relayoutData st;
     map_state_data := map_state_data st;
     selected_station_ids_data := selected_station_ids_data st;
     reset_button_n_clicks := reset_button_n_clicks st;
     case_selector_value := case_selector_value st;
     timeseries_container_children := timeseries_container_children st |}.

Definition press_reset (st : app) : app :=
  {| station_map_figure := station_map_figure st;
     station_map_clickData := station_map_clickData st;
     station_map_relayoutData := station_map_relayoutData st;
     map_state_data := map_state_data st;
     selected_station_ids_data := selected_station_ids_data st;
     reset_button_n_clicks := reset_button_n_clicks st + 1;
     case_selector_value := case_selector_value st;
     timeseries_container_children := timeseries_container_children st |}.

(** One event, and every callback it sets off, run to completion. *)
Definition tick (ev : event) (st : app) : app :=
  match ev with
  | markerClicked cd =>
      let st := set_clickData st cd in
      match update_station_list (Some "station-map") (station_map_clickData st)
              (reset_button_n_clicks st) (selected_station_ids_data st) with
      | Ok selected_ids => selection_written st selected_ids
      | Raise _ => st
      end
  | resetClicked =>
      let st := press_reset st in
      match update_station_list (Some "reset-button") (station_map_clickData st)
              (reset_button_n_clicks st) (selected_station_ids_data st) with
      | Ok selected_ids => selection_written st selected_ids
      | Raise _ => st
      end
  | caseWindowChanged label =>
      {| station_map_figure := station_map_figure st;
         station_map_clickData := station_map_clickData st;
         station_map_relayoutData := station_map_relayoutData st;
         map_state_data := map_state_data st;
         selected_station_ids_data := selected_station_ids_data st;
         reset_button_n_clicks := reset_button_n_clicks st;
         case_selector_value := label;
         timeseries_container_children :=
           or_keep (update_timeseries (selected_station_ids_data st) label)
                   (timeseries_container_children st) |}
  | viewportChanged partial =>
      {| station_map_figure := station_map_figure st;
         station_map_clickData := station_map_clickData st;
         station_map_relayoutData := Some partial;
         map_state_data := save_map_state py lib (Some partial) (map_state_data st);
         selected_station_ids_data := selected_station_ids_data st;
         reset_button_n_clicks := reset_button_n_clicks st;
         case_selector_value := case_selector_value st;
         timeseries_container_children := timeseries_container_children st |}
  end.

Definition run (evs : list event) (st : app) : app :=
  fold_left (fun st ev => tick ev st) evs st.

(** The layout's initial properties (lines 82-105) after the callbacks'
    first run. *)
Definition initial : app :=
  {| station_map_figure :=
       or_keep (update_map_figure py lib [] None)
               {| data := []; mapbox_zoom := JNull; mapbox_center := JNull |};
     station_map_clickData := None;
     station_map_relayoutData := None;
     map_state_data := save_map_state py lib None None;
     selected_station_ids_data := [];
     reset_button_n_clicks := 0;
     case_selector_value := "Case 1: 2025/01/29 - 2025/02/02";
     timeseries_container_children :=
       or_keep (update_timeseries [] "Case 1: 2025/01/29 - 2025/02/02") (Div EmptyString) |}.

End Callbacks.

(** ** Vocabulary of the statements *)

(** The [clickData] of a click on the marker of [stationId]: the marker's
    [text] is the station id (line 66). *)
Definition marker_click (stationId : string) : click :=
  {| points := Some [ {| point_text := Some stationId |} ] |}.

Definition marker_clicks (ids : list string) : list event :=
  map (fun stationId => markerClicked (marker_click stationId)) ids.

Definition is_viewportChanged (ev : event) : bool :=
  match ev with
  | viewportChanged _ => true
  | _ => false
  end.

(** The markers of a trace: label and position, one per row. *)
Definition markers (t : trace) : list (string * (float * float)) :=
  combine (text t) (combine (lat t) (lon t)).

(** The number of rows of a group whose value in [column] is at least 25. *)
Definition crossing (column : Obs.row -> cell) (r : Obs.row) : bool :=
  match column r with
  | Num v => PrimFloat.leb 25%float v
  | Str _ => false
  end.

Definition crossings (column : Obs.row -> cell) (group : list Obs.row) : nat :=
  length (List.filter (crossing column) group).

(** The ratio of two counts, as a float64. *)
Definition ratio (n d : nat) : float :=
  PrimFloat.div (float_of_count n) (float_of_count d).

(** The date of a timestamp that starts with one: its first ten
    characters. *)
Definition date_of (t : string) : string := substring 0 10 t.

(** A row whose date lies from the start date to the end date of a
    window, both included. *)
Definition in_dates (start_date end_date : string) (r : Obs.row) : bool :=
  String.leb start_date (date_of (Obs.VALIDTIME r))
  && String.leb (date_of (Obs.VALIDTIME r)) end_date.

(** The three series drawn from the rows of a chart. *)
Definition series_of (rows : list Obs.row) : list scatter :=
  [ {| x := map Obs.VALIDTIME rows; y := map Obs.ObsGustSpd1h rows; scatter_name := "Obs" |};
    {| x := map Obs.VALIDTIME rows; y := map Obs.wt_operation rows; scatter_name := "WT" |};
    {| x := map Obs.VALIDTIME rows; y := map Obs.arc_gust_pred rows;
       scatter_name := "ARC" |} ].

(** The window filter of the series projection. *)
Definition in_window (point_id start_date end_date : string) (r : Obs.row) : bool :=
  String.eqb (Obs.ID r) point_id
  && (String.leb start_date (Obs.VALIDTIME r) && String.leb (Obs.VALIDTIME r) end_date)
  && (Z.leb 0 (Obs.ft r) && Z.leb (Obs.ft r) 23).

(** What [sort_values("VALIDTIME")] is relied on for: the same rows, in
    ascending order of timestamp. *)
Definition ascending (rows : list Obs.row) : Prop :=
  StronglySorted (fun r1 r2 => String.leb (Obs.VALIDTIME r1) (Obs.VALIDTIME r2) = true) rows.

Definition sorts_by_VALIDTIME (sort_values : list Obs.row -> list Obs.row) : Prop :=
  forall rows, Permutation (sort_values rows) rows /\ ascending (sort_values rows).

(** An instance: insertion of each row before the first later one. *)
Fixpoint insert_row (r : Obs.row) (rows : list Obs.row) : list Obs.row :=
  match rows with
  | [] => [r]
  | r' :: rows' =>
      if String.leb (Obs.VALIDTIME r) (Obs.VALIDTIME r') then r :: rows
      else r' :: insert_row r rows'
  end.

Definition insertion_sort (rows : list Obs.row) : list Obs.row :=
  fold_right insert_row [] rows.

(** The value [save_map_state] stores under one key: the event's, else
    the previous state's, else the default. *)
Definition carried (rd : gmap string json) (event_key : string)
    (current_state : option (gmap string json)) (key : string) (default : json) : json :=
  match rd !! event_key with
  | Some v => v
  | None =>
      match current_state with
      | Some st => match st !! key with Some v => v | None => default end
      | None => default
      end
  end.

(** The signals of a row are float64 values (missing ones included). *)
Definition is_Num (c : cell) : bool :=
  match c with
  | Num _ => true
  | Str _ => false
  end.

Definition numbers (r : Obs.row) : bool :=
  is_Num (Obs.ObsGustSpd1h r) && is_Num (Obs.wt_operation r)
  && is_Num (Obs.arc_gust_pred r).

(** Ids in strictly ascending order. *)
Definition increasing (ks : list string) : Prop :=
  StronglySorted (fun a b => String.compare a b = Lt) ks.

(** [g] is the geometric mean of [xs]: raised to their number, it gives
    their product. *)
Definition is_geometric_mean (g : float) (xs : list float) : Prop :=
  fold_left PrimFloat.mul (repeat g (length xs)) 1%float
  = fold_left PrimFloat.mul xs 1%float.

(** A row is well formed when its three signals are numbers. *)
Definition numeric (c : cell) : bool :=
  match c with
  | Num v => notna v
  | Str _ => false
  end.

Definition well_formed (r : Obs.row) : bool :=
  numeric (Obs.ObsGustSpd1h r) && numeric (Obs.wt_operation r)
  && numeric (Obs.arc_gust_pred r).

(** Events that can write the selection. *)
Definition writes_selection (ev : event) : bool :=
  match ev with
  | markerClicked _ | resetClicked => true
  | caseWindowChanged _ | viewportChanged _ => false
  end.

(** A case change to a label of the registry (the dropdown offers no
    other); any other event. *)
Definition known_case (ev : event) : bool :=
  match ev with
  | caseWindowChanged label => existsb (String.eqb label) (map fst cases)
  | _ => true
  end.

(** The stored viewport is absent, or holds exactly a zoom and a centre. *)
Definition absent_or_full (map_state : option (gmap string json)) : Prop :=
  match map_state with
  | None => True
  | Some m => dom m = {["zoom"; "center"]}
  end.

(** The charts shown are those of the current selection and case, the
    case being one of the registry. *)
Definition charts_current (py : tables) (lib : library) (st : app) : Prop :=
  existsb (String.eqb (case_selector_value st)) (map fst cases) = true
  /\ update_timeseries py lib (selected_station_ids_data st) (case_selector_value st)
     = Ok (timeseries_container_children st).

(** ** Sample tables *)

Definition obs (id t : string) (ft : Z) (gust wt arc : float) : Obs.row :=
  {| Obs.ID := id; Obs.VALIDTIME := t; Obs.ft := ft;
     Obs.ObsGustSpd1h := Num gust; Obs.wt_operation := Num wt;
     Obs.arc_gust_pred := Num arc |}.

Definition sample_loc : list Loc.row :=
  [ {| Loc.ID := "S1"; Loc.LATD := 32%float; Loc.LOND := 100%float |};
    {| Loc.ID := "S2"; Loc.LATD := 50%float; Loc.LOND := 144%float |} ].

(** Ten rows of S1, three of them with an observed gust of 25 or more;
    one row of S2; two rows of S3, which has no location. *)
Definition sample_data : list Obs.row :=
  [ obs "S1" "2025-02-12 23:00" 5 26.5 20 21;
    obs "S1" "2025-02-13 00:00" 6 25 24 26;
    obs "S3" "2025-02-13 00:00" 6 31 30 29;
    obs "S1" "2025-02-13 06:00" 12 24.9 25 23;
    obs "S1" "2025-02-14 12:00" 30 18 17 16;
    obs "S1" "2025-02-14 12:00" 6 19 18 17;
    obs "S2" "2025-02-14 12:00" 6 12 11 10;
    obs "S1" "2025-02-13 12:00" 18 30.2 28 27;
    obs "S1" "2025-02-14 12:00" 18 11 12 13;
    obs "S1" "2025-02-15" 0 9 8 7;
    obs "S1" "2025-02-15 06:00" 6 8 7 6;
    obs "S3" "2025-02-15 06:00" 6 3 2 1;
    obs "S1" "2025-02-16 00:00" 6 7 6 5 ].

(** [Series.mean] as it computes on a column of fewer than eight values:
    those that are not missing, added from left to right, divided by
    their number. *)
Definition mean_of_few (s : list float) : float :=
  let vals := List.filter notna s in
  PrimFloat.div (fold_left PrimFloat.add vals 0%float) (float_of_count (length vals)).

(** The entry of a JSON object under a key. *)
Fixpoint entry (k : string) (fields : list (string * json)) : option json :=
  match fields with
  | [] => None
  | (k', v) :: rest => if String.eqb k' k then Some v else entry k rest
  end.

Definition is_JNum (v : json) : bool :=
  match v with
  | JNum _ => true
  | _ => false
  end.

(** An instance of [update_layout] for the sample runs: a centre given as
    a dict of numbers under [lat] and [lon] is merged into the centre of
    the figure, a numeric zoom replaces its zoom, and any other payload
    is refused. *)
Definition sample_update_layout (fig : figure) (center zoom : json) : result figure :=
  match center, zoom, mapbox_center fig with
  | JObj given, JNum _, JObj old =>
      if forallb (fun kv => (String.eqb (fst kv) "lat" || String.eqb (fst kv) "lon")
                            && is_JNum (snd kv)) given
      then
        let merged k :=
          match entry k given with
          | Some v => Some v
          | None => entry k old
          end in
        Ok {| data := data fig;
              mapbox_zoom := zoom;
              mapbox_center :=
                JObj (omap (fun k => v ← merged k; Some (k, v)) ["lat"; "lon"]) |}
      else Raise ValueError
  | _, _, _ => Raise ValueError
  end.

Definition sample_lib : library :=
  {| Series_mean := mean_of_few;
     sort_values := insertion_sort;
     update_layout := sample_update_layout |}.

Definition sample_py : tables :=
  {| loc_df := sample_loc; data_df := sample_data;
     plot_df :=
       match freq_df sample_data with
       | Ok freq => merge_left freq sample_loc
       | Raise _ => []
       end |}.

(** A row of S1 whose observed gust is missing, among good rows. *)
Definition nan_row : Obs.row :=
  {| Obs.ID := "S1"; Obs.VALIDTIME := "2025-02-13 00:00"; Obs.ft := 6;
     Obs.ObsGustSpd1h := Num nan; Obs.wt_operation := Num 20%float;
     Obs.arc_gust_pred := Num 21%float |}.

Definition nan_before : list Obs.row := [ obs "S2" "2025-02-13 00:00" 6 12 11 10 ].
Definition nan_after : list Obs.row := [ obs "S1" "2025-02-13 01:00" 7 30 20 21 ].

(** A table whose observed gusts were read as text, one of them not the
    text of a number: the column has dtype object. *)
Definition text_gust (id gust : string) : Obs.row :=
  {| Obs.ID := id; Obs.VALIDTIME := "2025-02-13 00:00"; Obs.ft := 6;
     Obs.ObsGustSpd1h := Str gust; Obs.wt_operation := Num 20%float;
     Obs.arc_gust_pred := Num 21%float |}.

Definition text_table : list Obs.row :=
  [ text_gust "S2" "12.0"; text_gust "S1" "abc"; text_gust "S1" "30.0" ].

(** * Proofs *)

(** ** SelectionState *)

Section SelectionState.

Lemma contains_In (l : list string) (s : string) :
  contains l s = true <-> In s l.
Proof.
  unfold contains. rewrite existsb_exists. split.
  - intros (y & Hy & Heq). apply String.eqb_eq in Heq. now subst.
  - intros H. exists s. split; [assumption | apply String.eqb_refl].
Qed.

Lemma contains_not_In (l : list string) (s : string) :
  contains l s = false <-> ~ In s l.
Proof.
  rewrite <- contains_In. destruct (contains l s); split; congruence.
Qed.

(** What the handler returns for a click on a marker, when the reset
    button is not what set it off. *)
Lemma update_station_list_click (trig : option string) (id : string) (n : Z)
    (sel : list string) :
  trig <> Some "reset-button" ->
  update_station_list trig (Some (marker_click id)) n sel
  = Ok (if contains sel id then sel else sel ++ [id]).
Proof.
  intros Htrig. unfold update_station_list.
  destruct (decide (trig = Some "reset-button")) as [E | _]; [contradiction |].
  simpl. now destruct (contains sel id).
Qed.

Lemma NoDup_snoc (l : list string) (s : string) :
  NoDup l -> ~ In s l -> NoDup (l ++ [s]).
Proof.
  intros Hl Hs. apply NoDup_app. split; [assumption | split].
  - intros x Hx Hx'. apply list_elem_of_In in Hx, Hx'.
    destruct Hx' as [<- | []]. contradiction.
  - apply NoDup_singleton.
Qed.

Variable py : tables.
Variable lib : library.

Lemma tick_markerClicked (id : string) (st : app) :
  selected_station_ids_data (tick py lib (markerClicked (marker_click id)) st)
  = let sel := selected_station_ids_data st in
    if contains sel id then sel else sel ++ [id].
Proof.
  unfold tick. cbn [set_clickData station_map_clickData reset_button_n_clicks
                    selected_station_ids_data].
  rewrite update_station_list_click by discriminate.
  reflexivity.
Qed.

Lemma run_app (evs1 evs2 : list event) (st : app) :
  run py lib (evs1 ++ evs2) st
  = run py lib evs2 (run py lib evs1 st).
Proof. unfold run. apply fold_left_app. Qed.

Lemma marker_clicks_grow (ids : list string) (st : app) :
  NoDup (selected_station_ids_data st) ->
  NoDup (selected_station_ids_data (run py lib (marker_clicks ids) st))
  /\ length (selected_station_ids_data st)
     <= length (selected_station_ids_data (run py lib (marker_clicks ids) st)).
Proof.
  revert st. induction ids as [| id ids IH]; intros st Hnd.
  - split; [exact Hnd | apply Nat.le_refl].
  - change (run py lib (marker_clicks (id :: ids)) st)
      with (run py lib (marker_clicks ids)
              (tick py lib (markerClicked (marker_click id)) st)).
    pose proof (tick_markerClicked id st) as Hstep. cbv zeta in Hstep.
    destruct (contains (selected_station_ids_data st) id) eqn:Hc.
    + destruct (IH (tick py lib (markerClicked (marker_click id)) st))
        as [Hnd' Hlen]; [rewrite Hstep; exact Hnd |].
      split; [exact Hnd' |]. rewrite Hstep in Hlen. exact Hlen.
    + apply contains_not_In in Hc.
      destruct (IH (tick py lib (markerClicked (marker_click id)) st))
        as [Hnd' Hlen]; [rewrite Hstep; now apply NoDup_snoc |].
      split; [exact Hnd' |].
      rewrite Hstep, length_app in Hlen. cbn [length] in Hlen. lia.
Qed.

End SelectionState.

(** C2. Marker clicks keep the selection an ordered set: a click on a
    station already selected returns the selection unchanged, a click on
    an absent station appends it at the end, and along any sequence of
    marker clicks (no reset in between) the selection stays free of
    duplicates and its length never decreases. *)
Theorem selection_clicks_C2 (py : tables) (lib : library)
    (st : app) (ids : list string) :
  NoDup (selected_station_ids_data st) ->
  (forall id n sel, In id sel ->
     update_station_list (Some "station-map") (Some (marker_click id)) n sel = Ok sel)
  /\ (forall id n sel, ~ In id sel ->
        update_station_list (Some "station-map") (Some (marker_click id)) n sel
        = Ok (sel ++ [id]))
  /\ NoDup (selected_station_ids_data (run py lib (marker_clicks ids) st))
  /\ (forall ids1 ids2, ids = ids1 ++ ids2 ->
        length (selected_station_ids_data st)
        <= length (selected_station_ids_data (run py lib (marker_clicks ids1) st))
        /\ length (selected_station_ids_data (run py lib (marker_clicks ids1) st))
           <= length (selected_station_ids_data (run py lib (marker_clicks ids) st))).
Proof.
  intros Hnd. repeat split.
  - intros id n sel Hin. rewrite update_station_list_click by discriminate.
    apply contains_In in Hin. now rewrite Hin.
  - intros id n sel Hin. rewrite update_station_list_click by discriminate.
    apply contains_not_In in Hin. now rewrite Hin.
  - now apply marker_clicks_grow.
  - now apply marker_clicks_grow.
  - subst ids. unfold marker_clicks. rewrite map_app, run_app.
    apply marker_clicks_grow. now apply marker_clicks_grow.
Qed.

Lemma selection_clicks_C2_witness :
  NoDup (selected_station_ids_data
           (run sample_py sample_lib (marker_clicks ["S1"; "S3"; "S1"])
              (initial sample_py sample_lib)))
  /\ selected_station_ids_data
       (run sample_py sample_lib (marker_clicks ["S1"; "S3"; "S1"])
          (initial sample_py sample_lib)) = ["S1"; "S3"].
Proof.
  split; [| vm_compute; reflexivity].
  apply (selection_clicks_C2 sample_py sample_lib
           (initial sample_py sample_lib) ["S1"; "S3"; "S1"]).
  simpl. apply NoDup_nil_2.
Defined.

(** C9, amended. An invocation set off by the reset button yields the
    empty selection whatever the selection was and whatever click data
    it carries.  When the reset button and the map both set off one
    invocation, the reset wins if the reset button comes first among the
    triggered inputs; if the map comes first the click is applied, as if
    no reset had been pressed. *)
Theorem reset_wins_C9 (clickData : option click) (reset_clicks : Z)
    (selected_ids : list string) (others : list (string * string)) (id : string) :
  update_station_list (Some "reset-button") clickData reset_clicks selected_ids = Ok []
  /\ update_station_list (ctx_triggered_id [("reset-button", "n_clicks")])
       clickData reset_clicks selected_ids = Ok []
  /\ update_station_list
       (ctx_triggered_id (("reset-button", "n_clicks") :: others))
       (Some (marker_click id)) reset_clicks selected_ids = Ok []
  /\ update_station_list
       (ctx_triggered_id (("station-map", "clickData") :: others))
       (Some (marker_click id)) reset_clicks selected_ids
     = Ok (if contains selected_ids id then selected_ids else selected_ids ++ [id])
  /\ (forall py lib st,
        selected_station_ids_data (tick py lib resetClicked st) = []).
Proof.
  split; [reflexivity | split; [reflexivity | split; [reflexivity | split]]].
  - apply update_station_list_click. discriminate.
  - intros py lib st. reflexivity.
Qed.

(** C9 as stated fails.  With S1 selected, an invocation set off by a
    click on the marker of S3 and by the reset button, the click first,
    returns S1 and S3: the reset is lost. *)
Lemma reset_wins_C9_counterexample :
  update_station_list
    (ctx_triggered_id [("station-map", "clickData"); ("reset-button", "n_clicks")])
    (Some (marker_click "S3")) 1 ["S1"]
  = Ok ["S1"; "S3"]
  /\ update_station_list
       (ctx_triggered_id [("station-map", "clickData"); ("reset-button", "n_clicks")])
       (Some (marker_click "S3")) 1 ["S1"]
     <> Ok [].
Proof. split; [reflexivity | discriminate]. Qed.

(** ** ViewportState *)

Section ViewportState.

Variable py : tables.
Variable lib : library.

Lemma falsy_Some (m : gmap string json) : falsy (Some m) = true <-> m = ∅.
Proof.
  unfold falsy. rewrite <- map_to_list_empty_iff.
  destruct (map_to_list m); split; congruence.
Qed.

Lemma truthy_Some (m : gmap string json) : m <> ∅ -> falsy (Some m) = false.
Proof.
  intros Hne. destruct (falsy (Some m)) eqn:E; [| reflexivity].
  apply falsy_Some in E. contradiction.
Qed.

Lemma lookup_nonempty (m : gmap string json) (k : string) (v : json) :
  m !! k = Some v -> m <> ∅.
Proof. intros Hk ->. rewrite lookup_empty in Hk. discriminate. Qed.

Lemma save_map_state_nonempty (rd : gmap string json)
    (current_state : option (gmap string json)) :
  rd <> ∅ ->
  save_map_state py lib (Some rd) current_state
  = Some (<["zoom" := carried rd "mapbox.zoom" current_state "zoom" (JNum 7%float)]>
            (<["center" := carried rd "mapbox.center" current_state "center" (mean_center py lib)]>
               ∅)).
Proof.
  intros Hne. unfold save_map_state. rewrite (truthy_Some rd Hne).
  unfold carried, get.
  destruct current_state as [st |]; [reflexivity |].
  rewrite !lookup_empty. reflexivity.
Qed.

Lemma save_map_state_empty (current_state : option (gmap string json)) :
  save_map_state py lib (Some ∅) current_state = current_state
  /\ save_map_state py lib None current_state = current_state.
Proof. split; reflexivity. Qed.

Lemma update_map_figure_stored (selected_ids : list string) (m : gmap string json)
    (center zoom : json) :
  m !! "center" = Some center -> m !! "zoom" = Some zoom ->
  update_map_figure py lib selected_ids (Some m)
  = update_layout lib (create_map py lib selected_ids) center zoom.
Proof.
  intros Hc Hz. unfold update_map_figure.
  rewrite (truthy_Some m (lookup_nonempty m _ _ Hc)), Hc, Hz. reflexivity.
Qed.

Lemma tick_keeps_map_state (ev : event) (st : app) :
  is_viewportChanged ev = false ->
  map_state_data (tick py lib ev st) = map_state_data st.
Proof.
  destruct ev as [cd | | label | partial]; simpl; intros Hev;
    try discriminate; try reflexivity.
  - destruct (update_station_list _ _ _ _); reflexivity.
Qed.

Lemma run_keeps_map_state (evs : list event) (st : app) :
  Forall (fun ev => is_viewportChanged ev = false) evs ->
  map_state_data (run py lib evs st) = map_state_data st.
Proof.
  revert st. induction evs as [| ev evs IH]; intros st Hevs; [reflexivity |].
  inversion Hevs as [| ? ? Hev Hrest]; subst.
  change (run py lib (ev :: evs) st)
    with (run py lib evs (tick py lib ev st)).
  rewrite IH by assumption. now apply tick_keeps_map_state.
Qed.

End ViewportState.

Example sample_startup : startup sample_loc sample_data = Ok sample_py.
Proof. vm_compute. reflexivity. Qed.

(** C1. Across any run of events none of which is a viewport change, the
    stored viewport is what it was.  A write of the selection runs the
    map callback, which hands the stored centre and zoom to plotly and
    returns a figure only: whether plotly accepts them or refuses them,
    the store is left as it was. *)
Theorem viewport_persists_C1 (py : tables) (lib : library)
    (evs : list event) (st : app) :
  Forall (fun ev => is_viewportChanged ev = false) evs ->
  map_state_data (run py lib evs st) = map_state_data st
  /\ (forall selected_ids,
        map_state_data (selection_written py lib st selected_ids) = map_state_data st)
  /\ (forall selected_ids m center zoom,
        m !! "center" = Some center -> m !! "zoom" = Some zoom ->
        update_map_figure py lib selected_ids (Some m)
        = update_layout lib (create_map py lib selected_ids) center zoom).
Proof.
  intros Hevs. split; [now apply run_keeps_map_state | split].
  - intros selected_ids. reflexivity.
  - intros selected_ids m center zoom. apply update_map_figure_stored.
Qed.

Lemma viewport_persists_C1_witness :
  let st := tick sample_py sample_lib
              (viewportChanged (<["mapbox.zoom" := JNum 9%float]> ∅))
              (initial sample_py sample_lib) in
  map_state_data
    (run sample_py sample_lib
       [markerClicked (marker_click "S1"); caseWindowChanged "Case 2: 2025/02/13 - 2025/02/15";
        markerClicked (marker_click "S3"); resetClicked] st)
  = map_state_data st.
Proof.
  intros st.
  apply (viewport_persists_C1 sample_py sample_lib
           [markerClicked (marker_click "S1");
            caseWindowChanged "Case 2: 2025/02/13 - 2025/02/15";
            markerClicked (marker_click "S3"); resetClicked] st).
  repeat constructor.
Defined.

(** C7, amended. A viewport event that is not empty stores exactly a zoom
    and a centre.  Each is the event's when the event has it; else the
    previous state's when there is one and it has the field; else the
    default: zoom 7, and for the centre the mean of the stations'
    latitudes and the mean of their longitudes as [Series.mean] returns
    them.  An empty event returns the previous state as it is, absent
    when it was absent. *)
Theorem viewport_event_C7 (py : tables) (lib : library) (rd : gmap string json)
    (current_state : option (gmap string json)) :
  rd <> ∅ ->
  (exists st',
     save_map_state py lib (Some rd) current_state = Some st'
     /\ dom st' = {["zoom"; "center"]}
     /\ (forall v, rd !! "mapbox.zoom" = Some v -> st' !! "zoom" = Some v)
     /\ (forall v, rd !! "mapbox.center" = Some v -> st' !! "center" = Some v)
     /\ (rd !! "mapbox.zoom" = None ->
         match current_state with
         | Some prev =>
             match prev !! "zoom" with
             | Some v => st' !! "zoom" = Some v
             | None => st' !! "zoom" = Some (JNum 7%float)
             end
         | None => st' !! "zoom" = Some (JNum 7%float)
         end)
     /\ (rd !! "mapbox.center" = None ->
         match current_state with
         | Some prev =>
             match prev !! "center" with
             | Some v => st' !! "center" = Some v
             | None => st' !! "center" = Some (mean_center py lib)
             end
         | None => st' !! "center" = Some (mean_center py lib)
         end))
  /\ mean_center py lib
     = JObj [("lat", JNum (Series_mean lib (map Loc.LATD (loc_df py))));
             ("lon", JNum (Series_mean lib (map Loc.LOND (loc_df py))))]
  /\ save_map_state py lib (Some ∅) current_state = current_state
  /\ save_map_state py lib None current_state = current_state.
Proof.
  intros Hne. split; [| repeat split].
  eexists. split; [apply (save_map_state_nonempty py lib rd current_state Hne) |].
  split; [| repeat split].
  - rewrite !dom_insert_L, dom_empty_L. set_solver.
  - intros v Hv. rewrite lookup_insert_eq. unfold carried. now rewrite Hv.
  - intros v Hv. rewrite lookup_insert_ne by discriminate.
    rewrite lookup_insert_eq. unfold carried. now rewrite Hv.
  - intros Hz. unfold carried. rewrite Hz.
    destruct current_state as [prev |]; [| apply lookup_insert_eq].
    destruct (prev !! "zoom"); apply lookup_insert_eq.
  - intros Hc. unfold carried. rewrite Hc.
    destruct current_state as [prev |].
    + destruct (prev !! "center"); rewrite lookup_insert_ne by discriminate;
        apply lookup_insert_eq.
    + rewrite lookup_insert_ne by discriminate. apply lookup_insert_eq.
Qed.

Lemma float_neq (a b : float) :
  PrimFloat.eqb a b = false -> PrimFloat.eqb b b = true -> a <> b.
Proof. intros Hab Hbb E. subst b. congruence. Qed.

Lemma sample_zoom_event :
  save_map_state sample_py sample_lib (Some (<["mapbox.zoom" := JNum 9%float]> ∅)) None
  = Some (<["zoom" := JNum 9%float]>
            (<["center" := JObj [("lat", JNum 41%float); ("lon", JNum 122%float)]]> ∅)).
Proof. vm_compute. reflexivity. Qed.

Lemma viewport_event_C7_witness :
  exists st',
    save_map_state sample_py sample_lib
      (Some (<["mapbox.zoom" := JNum 9%float]> ∅)) None = Some st'
    /\ st' !! "zoom" = Some (JNum 9%float)
    /\ st' !! "center" = Some (mean_center sample_py sample_lib).
Proof.
  destruct (viewport_event_C7 sample_py sample_lib
              (<["mapbox.zoom" := JNum 9%float]> ∅) None)
    as [(st' & Hsave & _ & Hzoom & _ & _ & Hcenter) _].
  - apply (lookup_nonempty _ "mapbox.zoom" (JNum 9%float)). apply lookup_insert_eq.
  - exists st'. split; [exact Hsave | split].
    + apply Hzoom. apply lookup_insert_eq.
    + apply Hcenter. reflexivity.
Defined.

(** C7 as stated fails twice.  With stations at latitudes 32 and 50 and
    longitudes 100 and 144, an event that carries only a zoom, with no
    previous state, stores the centre (41, 122), which is not the
    geometric mean (40, 120) of the coordinates.  And an event with no
    field, with no previous state, stores nothing: the result is the
    absent state, not the defaults. *)
Lemma viewport_event_C7_counterexample :
  ~ (exists g_lat g_lon,
       is_geometric_mean g_lat (map Loc.LATD (loc_df sample_py))
       /\ is_geometric_mean g_lon (map Loc.LOND (loc_df sample_py))
       /\ save_map_state sample_py sample_lib
            (Some (<["mapbox.zoom" := JNum 9%float]> ∅)) None
          = Some (<["zoom" := JNum 9%float]>
                    (<["center" := JObj [("lat", JNum g_lat); ("lon", JNum g_lon)]]> ∅)))
  /\ save_map_state sample_py sample_lib (Some ∅) None
     <> Some (<["zoom" := JNum 7%float]>
               (<["center" := mean_center sample_py sample_lib]> ∅)).
Proof.
  split.
  - intros (g_lat & g_lon & Hlat & _ & Hsave).
    rewrite sample_zoom_event in Hsave.
    apply (f_equal (fun o : option (gmap string json) => m ← o; m !! "center")) in Hsave.
    cbn [mbind option_bind] in Hsave.
    rewrite !(lookup_insert_ne _ "zoom" "center") in Hsave by discriminate.
    rewrite !lookup_insert_eq in Hsave.
    assert (g_lat = 41%float) as -> by congruence.
    unfold is_geometric_mean in Hlat. vm_compute in Hlat.
    revert Hlat. apply float_neq; vm_compute; reflexivity.
  - discriminate.
Qed.

(** C10. Once a viewport event that is not empty has been processed, the
    stored viewport holds exactly a zoom and a centre, whatever the event
    carried and whatever was stored before: each is the event's when the
    event has it, else the previous state's when it has it, else the
    default; and neither is null unless the event or the previous state
    held a null. *)
Theorem viewport_never_partial_C10 (py : tables) (lib : library)
    (rd : gmap string json) (st : app) :
  rd <> ∅ ->
  (forall current_state,
     exists m zoom center,
       save_map_state py lib (Some rd) current_state = Some m
       /\ dom m = {["zoom"; "center"]}
       /\ m !! "zoom" = Some zoom /\ m !! "center" = Some center
       /\ zoom = match rd !! "mapbox.zoom" with
                 | Some v => v
                 | None =>
                     match current_state with
                     | Some prev =>
                         match prev !! "zoom" with
                         | Some v => v
                         | None => JNum 7%float
                         end
                     | None => JNum 7%float
                     end
                 end
       /\ center = match rd !! "mapbox.center" with
                   | Some v => v
                   | None =>
                       match current_state with
                       | Some prev =>
                           match prev !! "center" with
                           | Some v => v
                           | None => mean_center py lib
                           end
                       | None => mean_center py lib
                       end
                   end
       /\ ((forall k v, rd !! k = Some v -> v <> JNull) ->
           (forall prev k v, current_state = Some prev -> prev !! k = Some v ->
                             v <> JNull) ->
           zoom <> JNull /\ center <> JNull))
  /\ map_state_data (tick py lib (viewportChanged rd) st)
     = save_map_state py lib (Some rd) (map_state_data st).
Proof.
  intros Hne. split; [| reflexivity].
  intros current_state. do 3 eexists.
  split; [apply (save_map_state_nonempty py lib rd current_state Hne) |].
  split; [rewrite !dom_insert_L, dom_empty_L; set_solver |].
  split; [apply lookup_insert_eq |].
  split; [rewrite lookup_insert_ne by discriminate; apply lookup_insert_eq |].
  split; [reflexivity | split; [reflexivity |]].
  intros Hrd Hprev. unfold carried. split.
  - destruct (rd !! "mapbox.zoom") as [v |] eqn:E; [exact (Hrd _ _ E) |].
    destruct current_state as [prev |]; [| discriminate].
    destruct (prev !! "zoom") as [v |] eqn:E'; [exact (Hprev prev _ _ eq_refl E') |].
    discriminate.
  - destruct (rd !! "mapbox.center") as [v |] eqn:E; [exact (Hrd _ _ E) |].
    destruct current_state as [prev |]; [| discriminate].
    destruct (prev !! "center") as [v |] eqn:E'; [exact (Hprev prev _ _ eq_refl E') |].
    discriminate.
Qed.

Lemma viewport_never_partial_C10_witness :
  exists m,
    map_state_data
      (tick sample_py sample_lib
         (viewportChanged (<["mapbox.bearing" := JNum 0%float]> ∅))
         (tick sample_py sample_lib
            (viewportChanged (<["mapbox.zoom" := JNum 9%float]> ∅))
            (initial sample_py sample_lib))) = Some m
    /\ m !! "zoom" = Some (JNum 9%float)
    /\ m !! "center" = Some (mean_center sample_py sample_lib).
Proof.
  destruct (viewport_never_partial_C10 sample_py sample_lib
              (<["mapbox.bearing" := JNum 0%float]> ∅)
              (tick sample_py sample_lib
                 (viewportChanged (<["mapbox.zoom" := JNum 9%float]> ∅))
                 (initial sample_py sample_lib)))
    as [Hall Htick].
  - apply (lookup_nonempty _ "mapbox.bearing" (JNum 0%float)). apply lookup_insert_eq.
  - rewrite Htick.
    destruct (Hall (map_state_data
                      (tick sample_py sample_lib
                         (viewportChanged (<["mapbox.zoom" := JNum 9%float]> ∅))
                         (initial sample_py sample_lib))))
      as (m & zoom & center & Hm & _ & Hzoom & Hcenter & -> & -> & _).
    exists m. split; [exact Hm | split; [exact Hzoom | exact Hcenter]].
Defined.

(** ** FrequencyAggregator *)

Section FrequencyAggregator.

Lemma traverse_Ok {A B : Type} (f : A -> result B) (l : list A) (bs : list B) :
  traverse f l = Ok bs <-> Forall2 (fun a b => f a = Ok b) l bs.
Proof.
  revert bs. induction l as [| a l IH]; intros bs; simpl.
  - split.
    + intros [= <-]. constructor.
    + intros H. inversion H. reflexivity.
  - split.
    + destruct (f a) as [b | e] eqn:Hb; simpl; [| discriminate].
      destruct (traverse f l) as [bs' | e] eqn:Hbs; simpl; [| discriminate].
      intros [= <-]. constructor; [exact Hb | now apply IH].
    + intros H. inversion H as [| ? b ? bs' Hb Hbs]; subst.
      rewrite Hb. simpl. apply IH in Hbs. rewrite Hbs. reflexivity.
Qed.

Lemma Series_ge_sum (column : Obs.row -> cell) (g : list Obs.row) (mask : list bool) :
  Series_ge (map column g) 25%float = Ok mask ->
  Series_sum mask = crossings column g /\ Forall (fun r => exists v, column r = Num v) g.
Proof.
  unfold Series_ge, Series_sum, crossings. revert mask.
  induction g as [| r g IH]; intros mask; simpl.
  - intros [= <-]. split; [reflexivity | constructor].
  - unfold crossing at 1. destruct (column r) as [v | s] eqn:Hr; simpl; [| discriminate].
    destruct (traverse (cell_ge 25) (map column g)) as [mask' | e]; simpl; [| discriminate].
    intros [= <-]. destruct (IH mask' eq_refl) as [IHsum IHnum].
    split; [| constructor; [now exists v | exact IHnum]].
    simpl. destruct (PrimFloat.leb 25 v); simpl; now rewrite IHsum.
Qed.

Lemma calc_freq_Ok (g : list Obs.row) (column : Obs.row -> cell) (f : float) :
  calc_freq g column = Ok f -> f = ratio (crossings column g) (length g).
Proof.
  unfold calc_freq.
  destruct (Series_ge (map column g) 25) as [mask | e] eqn:Hmask; simpl; [| discriminate].
  intros [= <-]. apply Series_ge_sum in Hmask as [-> _]. reflexivity.
Qed.

Lemma calc_freq_numeric (g : list Obs.row) (column : Obs.row -> cell) :
  Forall (fun r => exists v, column r = Num v) g ->
  calc_freq g column = Ok (ratio (crossings column g) (length g)).
Proof.
  intros Hnum.
  assert (exists mask, Series_ge (map column g) 25%float = Ok mask) as [mask Hmask].
  { unfold Series_ge. induction Hnum as [| r g [v Hv] _ [mask IH]]; simpl.
    - now exists [].
    - rewrite Hv, IH. simpl. eexists. reflexivity. }
  unfold calc_freq. rewrite Hmask. simpl.
  apply Series_ge_sum in Hmask as [-> _]. reflexivity.
Qed.

Lemma freq_row_Ok (k : string) (g : list Obs.row) (rec : Freq.row) :
  freq_row k g = Ok rec ->
  rec = {| Freq.ID := k;
           Freq.obs_freq := ratio (crossings Obs.ObsGustSpd1h g) (length g);
           Freq.wt_freq := ratio (crossings Obs.wt_operation g) (length g);
           Freq.arc_freq := ratio (crossings Obs.arc_gust_pred g) (length g) |}.
Proof.
  unfold freq_row.
  destruct (calc_freq g Obs.ObsGustSpd1h) as [o | e] eqn:Ho; simpl; [| discriminate].
  destruct (calc_freq g Obs.wt_operation) as [w | e] eqn:Hw; simpl; [| discriminate].
  destruct (calc_freq g Obs.arc_gust_pred) as [a | e] eqn:Ha; simpl; [| discriminate].
  intros [= <-].
  apply calc_freq_Ok in Ho, Hw, Ha. now subst.
Qed.

Lemma compare_refl (a : string) : String.compare a a = Eq.
Proof. now apply String_as_OT.cmp_eq. Qed.

Lemma compare_Lt_trans (a b c : string) :
  String.compare a b = Lt -> String.compare b c = Lt -> String.compare a c = Lt.
Proof.
  intros Hab Hbc. apply String_as_OT.cmp_lt.
  apply String_as_OT.lt_trans with b; now apply String_as_OT.cmp_lt.
Qed.

Lemma compare_Gt_Lt (a b : string) :
  String.compare a b = Gt -> String.compare b a = Lt.
Proof.
  intros Hab. rewrite String.compare_antisym in Hab.
  destruct (String.compare b a); simpl in Hab; congruence.
Qed.

Lemma insert_key_In (k x : string) (ks : list string) :
  In x (insert_key k ks) <-> x = k \/ In x ks.
Proof.
  induction ks as [| k' ks IH]; simpl.
  - intuition.
  - destruct (String.compare k k') eqn:Hc; simpl.
    + apply String.compare_eq_iff in Hc. subst k'. intuition.
    + intuition.
    + rewrite IH. intuition.
Qed.

Lemma insert_key_increasing (k : string) (ks : list string) :
  increasing ks -> increasing (insert_key k ks).
Proof.
  unfold increasing. induction ks as [| k' ks IH]; intros Hks; simpl.
  - repeat constructor.
  - inversion Hks as [| ? ? Htail Hhead]; subst.
    destruct (String.compare k k') eqn:Hc.
    + exact Hks.
    + constructor; [exact Hks |].
      constructor; [exact Hc |].
      rewrite List.Forall_forall in Hhead. apply List.Forall_forall.
      intros b Hb. apply compare_Lt_trans with k'; [exact Hc | now apply Hhead].
    + constructor; [now apply IH |].
      apply List.Forall_forall. intros x Hx. apply insert_key_In in Hx as [-> | Hx].
      * now apply compare_Gt_Lt.
      * rewrite List.Forall_forall in Hhead. now apply Hhead.
Qed.

Lemma group_keys_In (df : list Obs.row) (k : string) :
  In k (group_keys df) <-> In k (map Obs.ID df).
Proof.
  unfold group_keys. induction (map Obs.ID df) as [| k' ks IH]; simpl.
  - tauto.
  - rewrite insert_key_In, IH. intuition.
Qed.

Lemma group_keys_increasing (df : list Obs.row) : increasing (group_keys df).
Proof.
  unfold group_keys. induction (map Obs.ID df) as [| k' ks IH]; simpl.
  - constructor.
  - now apply insert_key_increasing.
Qed.

Lemma increasing_NoDup (ks : list string) : increasing ks -> NoDup ks.
Proof.
  induction 1 as [| k ks _ IH Hhead]; constructor; [| exact IH].
  intros Hin. apply list_elem_of_In in Hin.
  rewrite List.Forall_forall in Hhead. specialize (Hhead k Hin).
  rewrite compare_refl in Hhead. discriminate.
Qed.

Lemma group_of_In (df : list Obs.row) (k : string) (r : Obs.row) :
  In r (group_of df k) <-> In r df /\ Obs.ID r = k.
Proof. unfold group_of. rewrite filter_In, String.eqb_eq. reflexivity. Qed.

Lemma group_of_nonempty (df : list Obs.row) (k : string) :
  In k (map Obs.ID df) -> 1 <= length (group_of df k).
Proof.
  intros Hk. apply in_map_iff in Hk as (r & Hr & Hin).
  assert (Hg : In r (group_of df k)) by now apply group_of_In.
  destruct (group_of df k); [destruct Hg | simpl; lia].
Qed.

(** The records of [freq_df], one per key and in the order of the keys. *)
Lemma Forall2_groups (df : list Obs.row) (ks : list string) (recs : list Freq.row) :
  Forall2 (fun kg rec => freq_row (fst kg) (snd kg) = Ok rec)
    (map (fun k => (k, group_of df k)) ks) recs
  <-> Forall2 (fun k rec => freq_row k (group_of df k) = Ok rec) ks recs.
Proof.
  revert recs. induction ks as [| k ks IH]; intros recs; simpl.
  - split; intros H; inversion H; constructor.
  - split; intros H; inversion H; subst; constructor; try assumption; now apply IH.
Qed.

Lemma freq_df_rows (df : list Obs.row) (recs : list Freq.row) :
  freq_df df = Ok recs ->
  Forall2 (fun k rec => freq_row k (group_of df k) = Ok rec) (group_keys df) recs.
Proof.
  unfold freq_df. destruct df as [| r df]; [discriminate |].
  unfold groupby_ID. rewrite traverse_Ok. apply Forall2_groups.
Qed.

Lemma freq_df_rows_inv (df : list Obs.row) (recs : list Freq.row) :
  df <> [] ->
  Forall2 (fun k rec => freq_row k (group_of df k) = Ok rec) (group_keys df) recs ->
  freq_df df = Ok recs.
Proof.
  unfold freq_df. destruct df as [| r df]; [congruence |]. intros _.
  unfold groupby_ID. rewrite traverse_Ok. apply Forall2_groups.
Qed.

Lemma freq_df_keys (df : list Obs.row) (recs : list Freq.row) :
  freq_df df = Ok recs -> map Freq.ID recs = group_keys df.
Proof.
  intros H. apply freq_df_rows in H.
  induction H as [| k rec ks recs Hrow _ IH]; [reflexivity |].
  simpl. rewrite IH. apply freq_row_Ok in Hrow. subst rec. reflexivity.
Qed.

Lemma freq_df_In (df : list Obs.row) (recs : list Freq.row) (rec : Freq.row) :
  freq_df df = Ok recs ->
  In rec recs <->
  In (Freq.ID rec) (map Obs.ID df)
  /\ freq_row (Freq.ID rec) (group_of df (Freq.ID rec)) = Ok rec.
Proof.
  intros H. apply freq_df_rows in H. rewrite <- group_keys_In.
  induction H as [| k rec' ks recs Hrow _ IH]; simpl.
  - tauto.
  - rewrite IH. split.
    + intros [<- | [Hin Hr]].
      * pose proof (freq_row_Ok _ _ _ Hrow) as E.
        assert (Freq.ID rec' = k) as -> by (rewrite E; reflexivity). auto.
      * auto.
    + intros [[<- | Hin] Hr].
      * left. congruence.
      * right. auto.
Qed.

Lemma traverse_Raise {A B : Type} (f : A -> result B) (l : list A) (e : exn) :
  traverse f l = Raise e -> exists a, In a l /\ f a = Raise e.
Proof.
  induction l as [| a l IH]; simpl; [discriminate |].
  destruct (f a) as [b | e'] eqn:Hb; simpl.
  - destruct (traverse f l) as [bs | e'']; simpl; [discriminate |].
    intros [= <-]. destruct (IH eq_refl) as (a' & Hin & Ha'). eauto.
  - intros [= <-]. eauto.
Qed.

Lemma calc_freq_Raise (g : list Obs.row) (column : Obs.row -> cell) (e : exn) :
  calc_freq g column = Raise e -> e = TypeError.
Proof.
  unfold calc_freq, Series_ge.
  destruct (traverse (cell_ge 25) (map column g)) as [mask | e'] eqn:Hmask; simpl;
    [discriminate |].
  intros [= <-]. apply traverse_Raise in Hmask as (c & _ & Hc).
  destruct c; simpl in Hc; congruence.
Qed.

Lemma freq_row_Raise (k : string) (g : list Obs.row) (e : exn) :
  freq_row k g = Raise e -> e = TypeError.
Proof.
  unfold freq_row.
  destruct (calc_freq g Obs.ObsGustSpd1h) as [o | e1] eqn:Ho; simpl;
    [| intros [= <-]; now apply calc_freq_Raise in Ho].
  destruct (calc_freq g Obs.wt_operation) as [w | e2] eqn:Hw; simpl;
    [| intros [= <-]; now apply calc_freq_Raise in Hw].
  destruct (calc_freq g Obs.arc_gust_pred) as [a | e3] eqn:Ha; simpl;
    [discriminate | intros [= <-]; now apply calc_freq_Raise in Ha].
Qed.

Lemma freq_row_numbers (k : string) (g : list Obs.row) :
  forallb numbers g = true -> exists rec, freq_row k g = Ok rec.
Proof.
  intros Hg. rewrite forallb_forall in Hg.
  assert (Hcols : forall r, In r g ->
            (exists v, Obs.ObsGustSpd1h r = Num v)
            /\ (exists v, Obs.wt_operation r = Num v)
            /\ (exists v, Obs.arc_gust_pred r = Num v)).
  { intros r Hr. specialize (Hg r Hr). unfold numbers in Hg.
    apply andb_prop in Hg as [Hg Ha]. apply andb_prop in Hg as [Ho Hw].
    destruct (Obs.ObsGustSpd1h r), (Obs.wt_operation r), (Obs.arc_gust_pred r);
      try discriminate; repeat split; eexists; reflexivity. }
  unfold freq_row.
  rewrite (calc_freq_numeric g Obs.ObsGustSpd1h)
    by (apply List.Forall_forall; intros r Hr; apply (Hcols r Hr)).
  rewrite (calc_freq_numeric g Obs.wt_operation)
    by (apply List.Forall_forall; intros r Hr; apply (Hcols r Hr)).
  rewrite (calc_freq_numeric g Obs.arc_gust_pred)
    by (apply List.Forall_forall; intros r Hr; apply (Hcols r Hr)).
  simpl. eauto.
Qed.

Lemma freq_row_Ok_numbers (k : string) (g : list Obs.row) (rec : Freq.row) :
  freq_row k g = Ok rec -> forallb numbers g = true.
Proof.
  unfold freq_row, calc_freq.
  destruct (Series_ge (map Obs.ObsGustSpd1h g) 25) as [m1 | e] eqn:H1; simpl;
    [| discriminate].
  destruct (Series_ge (map Obs.wt_operation g) 25) as [m2 | e] eqn:H2; simpl;
    [| discriminate].
  destruct (Series_ge (map Obs.arc_gust_pred g) 25) as [m3 | e] eqn:H3; simpl;
    [| discriminate].
  intros _.
  apply Series_ge_sum in H1 as [_ H1], H2 as [_ H2], H3 as [_ H3].
  rewrite List.Forall_forall in H1, H2, H3.
  apply forallb_forall. intros r Hr. unfold numbers.
  destruct (H1 r Hr) as [v1 ->], (H2 r Hr) as [v2 ->], (H3 r Hr) as [v3 ->].
  reflexivity.
Qed.

(** The aggregation of a table with a row returns exactly when every
    signal is a float64. *)
Lemma freq_df_numbers (df : list Obs.row) :
  df <> [] -> forallb numbers df = true -> exists recs, freq_df df = Ok recs.
Proof.
  intros Hne Hdf.
  assert (Hrow : forall k, exists rec, freq_row k (group_of df k) = Ok rec).
  { intros k. apply freq_row_numbers. apply forallb_forall. intros r Hr.
    apply group_of_In in Hr as [Hr _]. rewrite forallb_forall in Hdf. now apply Hdf. }
  assert (Hks : forall ks, exists recs,
             Forall2 (fun k rec => freq_row k (group_of df k) = Ok rec) ks recs).
  { induction ks as [| k ks [recs IH]].
    - exists []. constructor.
    - destruct (Hrow k) as [rec Hrec]. exists (rec :: recs). now constructor. }
  destruct (Hks (group_keys df)) as [recs Hrecs].
  exists recs. now apply freq_df_rows_inv.
Qed.

Lemma freq_df_Ok_numbers (df : list Obs.row) (recs : list Freq.row) :
  freq_df df = Ok recs -> forallb numbers df = true.
Proof.
  intros H. apply forallb_forall. intros r Hr.
  assert (Hk : In (Obs.ID r) (map Obs.ID df)) by now apply in_map.
  rewrite <- group_keys_In, <- (freq_df_keys df recs H) in Hk.
  apply in_map_iff in Hk as (rec & Hid & Hrec).
  apply (freq_df_In df recs rec H) in Hrec as [_ Hrow].
  apply freq_row_Ok_numbers in Hrow. rewrite forallb_forall in Hrow.
  apply Hrow. apply group_of_In. auto.
Qed.

Lemma freq_df_raises (df : list Obs.row) :
  forallb numbers df = false -> freq_df df = Raise TypeError.
Proof.
  intros Hdf. destruct (freq_df df) as [recs | e] eqn:H.
  - apply freq_df_Ok_numbers in H. congruence.
  - unfold freq_df in H. destruct df as [| r df]; [discriminate |].
    apply traverse_Raise in H as (kg & _ & Hkg).
    apply freq_row_Raise in Hkg. now subst.
Qed.

End FrequencyAggregator.

Lemma ratio_3_10 : ratio 3 10 = 0.3%float.
Proof. vm_compute. reflexivity. Qed.

(** C4. The aggregation has one record per station id of the table.  For
    a station with at least one row, each of its three frequencies is the
    number of rows of its group whose value in the signal's column is 25
    or more, divided by the number of rows of the group; ten rows of
    which three have an observed gust of 25 or more give 0.3. *)
Theorem frequency_ratio_C4 (df : list Obs.row) (recs : list Freq.row) (id : string) :
  freq_df df = Ok recs ->
  In id (map Obs.ID df) ->
  NoDup (map Freq.ID recs)
  /\ (forall r, In r (group_of df id) <-> In r df /\ Obs.ID r = id)
  /\ 1 <= length (group_of df id)
  /\ exists rec,
       In rec recs /\ Freq.ID rec = id
       /\ Freq.obs_freq rec
          = PrimFloat.div (float_of_count (crossings Obs.ObsGustSpd1h (group_of df id)))
              (float_of_count (length (group_of df id)))
       /\ Freq.wt_freq rec
          = PrimFloat.div (float_of_count (crossings Obs.wt_operation (group_of df id)))
              (float_of_count (length (group_of df id)))
       /\ Freq.arc_freq rec
          = PrimFloat.div (float_of_count (crossings Obs.arc_gust_pred (group_of df id)))
              (float_of_count (length (group_of df id)))
       /\ (length (group_of df id) = 10 ->
           crossings Obs.ObsGustSpd1h (group_of df id) = 3 ->
           Freq.obs_freq rec = 0.3%float).
Proof.
  intros Hdf Hid. split; [| split; [| split]].
  - rewrite (freq_df_keys df recs Hdf).
    apply increasing_NoDup, group_keys_increasing.
  - intros r. apply group_of_In.
  - now apply group_of_nonempty.
  - pose proof Hid as Hk.
    rewrite <- group_keys_In, <- (freq_df_keys df recs Hdf) in Hk.
    apply in_map_iff in Hk as (rec & Hrec_id & Hrec).
    exists rec. split; [exact Hrec | split; [exact Hrec_id |]].
    apply (freq_df_In df recs rec Hdf) in Hrec as [_ Hrow].
    rewrite Hrec_id in Hrow. apply freq_row_Ok in Hrow. subst rec. simpl.
    repeat split.
    intros Hlen Hcross. rewrite Hlen, Hcross. apply ratio_3_10.
Qed.

Lemma frequency_ratio_C4_witness :
  exists rec,
    In rec [ {| Freq.ID := "S1"; Freq.obs_freq := 0.3; Freq.wt_freq := 0.2;
                Freq.arc_freq := 0.2 |};
             {| Freq.ID := "S2"; Freq.obs_freq := 0; Freq.wt_freq := 0;
                Freq.arc_freq := 0 |};
             {| Freq.ID := "S3"; Freq.obs_freq := 0.5; Freq.wt_freq := 0.5;
                Freq.arc_freq := 0.5 |} ]
    /\ Freq.ID rec = "S1" /\ Freq.obs_freq rec = 0.3%float.
Proof.
  destruct (frequency_ratio_C4 sample_data
              [ {| Freq.ID := "S1"; Freq.obs_freq := 0.3; Freq.wt_freq := 0.2;
                   Freq.arc_freq := 0.2 |};
                {| Freq.ID := "S2"; Freq.obs_freq := 0; Freq.wt_freq := 0;
                   Freq.arc_freq := 0 |};
                {| Freq.ID := "S3"; Freq.obs_freq := 0.5; Freq.wt_freq := 0.5;
                   Freq.arc_freq := 0.5 |} ] "S1")
    as (_ & _ & _ & rec & Hin & Hid & _ & _ & _ & H03).
  - vm_compute. reflexivity.
  - vm_compute. tauto.
  - exists rec. split; [exact Hin | split; [exact Hid |]].
    apply H03; vm_compute; reflexivity.
Defined.

Lemma group_of_app (df1 df2 : list Obs.row) (k : string) :
  group_of (df1 ++ df2) k = group_of df1 k ++ group_of df2 k.
Proof. unfold group_of. apply List.filter_app. Qed.

Lemma group_of_other (pre post : list Obs.row) (r : Obs.row) (k : string) :
  k <> Obs.ID r -> group_of (pre ++ r :: post) k = group_of (pre ++ post) k.
Proof.
  intros Hk. rewrite !group_of_app. f_equal. unfold group_of. simpl.
  destruct (String.eqb_spec (Obs.ID r) k) as [E | _]; [congruence | reflexivity].
Qed.

Lemma group_of_own (pre post : list Obs.row) (r : Obs.row) :
  group_of (pre ++ r :: post) (Obs.ID r)
  = group_of pre (Obs.ID r) ++ r :: group_of post (Obs.ID r).
Proof.
  rewrite group_of_app. f_equal. unfold group_of. simpl.
  now rewrite String.eqb_refl.
Qed.

Lemma crossings_missing (column : Obs.row -> cell) (g1 g2 : list Obs.row) (r : Obs.row) :
  column r = Num nan ->
  crossings column (g1 ++ r :: g2) = crossings column (g1 ++ g2)
  /\ length (g1 ++ r :: g2) = S (length (g1 ++ g2)).
Proof.
  intros Hr. unfold crossings. rewrite !List.filter_app, !length_app. simpl.
  unfold crossing at 2. rewrite Hr.
  change (PrimFloat.leb 25 nan) with false. split; lia.
Qed.

(** C8, amended. In a table whose signals are all float64 values, a row
    whose value in a signal column is missing does not stop the
    aggregation.  The row is not counted among the crossings of that
    column but is counted among the rows of its station: the frequency is
    the number of crossings among the other rows of the station divided
    by their number plus one.  The record of every other station is
    computed from the rows of that station alone, and is the one the
    table without the row gives. *)
Theorem missing_value_C8 (pre post : list Obs.row) (r : Obs.row) :
  forallb numbers (pre ++ r :: post) = true ->
  exists recs,
    freq_df (pre ++ r :: post) = Ok recs
    /\ (forall rec, In rec recs -> Freq.ID rec <> Obs.ID r ->
          Freq.obs_freq rec
          = ratio (crossings Obs.ObsGustSpd1h (group_of (pre ++ post) (Freq.ID rec)))
                  (length (group_of (pre ++ post) (Freq.ID rec)))
          /\ Freq.wt_freq rec
             = ratio (crossings Obs.wt_operation (group_of (pre ++ post) (Freq.ID rec)))
                     (length (group_of (pre ++ post) (Freq.ID rec)))
          /\ Freq.arc_freq rec
             = ratio (crossings Obs.arc_gust_pred (group_of (pre ++ post) (Freq.ID rec)))
                     (length (group_of (pre ++ post) (Freq.ID rec))))
    /\ (forall recs', freq_df (pre ++ post) = Ok recs' ->
          forall rec, Freq.ID rec <> Obs.ID r -> In rec recs <-> In rec recs')
    /\ exists rec,
         In rec recs /\ Freq.ID rec = Obs.ID r
         /\ (Obs.ObsGustSpd1h r = Num nan ->
             Freq.obs_freq rec
             = ratio (crossings Obs.ObsGustSpd1h (group_of (pre ++ post) (Obs.ID r)))
                     (S (length (group_of (pre ++ post) (Obs.ID r)))))
         /\ (Obs.wt_operation r = Num nan ->
             Freq.wt_freq rec
             = ratio (crossings Obs.wt_operation (group_of (pre ++ post) (Obs.ID r)))
                     (S (length (group_of (pre ++ post) (Obs.ID r)))))
         /\ (Obs.arc_gust_pred r = Num nan ->
             Freq.arc_freq rec
             = ratio (crossings Obs.arc_gust_pred (group_of (pre ++ post) (Obs.ID r)))
                     (S (length (group_of (pre ++ post) (Obs.ID r))))).
Proof.
  intros Hnum.
  destruct (freq_df_numbers (pre ++ r :: post)) as [recs Hdf];
    [now destruct pre | exact Hnum |].
  exists recs. split; [exact Hdf | split; [| split]].
  - intros rec Hrec Hother.
    apply (freq_df_In _ _ rec Hdf) in Hrec as [_ Hrow].
    rewrite (group_of_other pre post r (Freq.ID rec) Hother) in Hrow.
    apply freq_row_Ok in Hrow. rewrite Hrow. simpl. repeat split.
  - intros recs' Hdf' rec Hother.
    rewrite (freq_df_In _ _ rec Hdf), (freq_df_In _ _ rec Hdf').
    rewrite (group_of_other pre post r (Freq.ID rec) Hother).
    rewrite !map_app, !in_app_iff. simpl. intuition congruence.
  - assert (Hk : In (Obs.ID r) (map Obs.ID (pre ++ r :: post))).
    { apply in_map, in_or_app. right. now left. }
    rewrite <- group_keys_In, <- (freq_df_keys _ recs Hdf) in Hk.
    apply in_map_iff in Hk as (rec & Hrec_id & Hrec).
    exists rec. split; [exact Hrec | split; [exact Hrec_id |]].
    apply (freq_df_In _ recs rec Hdf) in Hrec as [_ Hrow].
    rewrite Hrec_id in Hrow. apply freq_row_Ok in Hrow. subst rec. simpl.
    rewrite group_of_own, group_of_app.
    repeat split; intros Hmissing;
      destruct (crossings_missing _ (group_of pre (Obs.ID r))
                  (group_of post (Obs.ID r)) r Hmissing) as [-> ->];
      reflexivity.
Qed.

Lemma missing_value_C8_witness :
  exists recs rec,
    freq_df (nan_before ++ nan_row :: nan_after) = Ok recs
    /\ In rec recs
    /\ Freq.ID rec = "S1"
    /\ Freq.obs_freq rec = ratio 1 2.
Proof.
  destruct (missing_value_C8 nan_before nan_after nan_row)
    as (recs & Hdf & _ & _ & rec & Hin & Hid & Hobs & _ & _).
  - vm_compute. reflexivity.
  - exists recs, rec. repeat split; try assumption.
    apply Hobs. reflexivity.
Defined.

(** C8 as stated fails.  A row of S1 with a missing observed gust, next
    to one row of S1 with a gust of 30, gives S1 the frequency 1/2: the
    row is counted among the rows of S1.  Without the row the frequency
    is 1.  And in a table whose observed gusts were read as text, the
    aggregation stops for every station, S2 included. *)
Lemma malformed_row_C8_counterexample :
  well_formed nan_row = false
  /\ freq_df (nan_before ++ nan_row :: nan_after)
     = Ok [ {| Freq.ID := "S1"; Freq.obs_freq := 0.5; Freq.wt_freq := 0;
               Freq.arc_freq := 0 |};
            {| Freq.ID := "S2"; Freq.obs_freq := 0; Freq.wt_freq := 0;
               Freq.arc_freq := 0 |} ]
  /\ freq_df (List.filter well_formed (nan_before ++ nan_row :: nan_after))
     = Ok [ {| Freq.ID := "S1"; Freq.obs_freq := 1; Freq.wt_freq := 0;
               Freq.arc_freq := 0 |};
            {| Freq.ID := "S2"; Freq.obs_freq := 0; Freq.wt_freq := 0;
               Freq.arc_freq := 0 |} ]
  /\ freq_df (nan_before ++ nan_row :: nan_after)
     <> freq_df (List.filter well_formed (nan_before ++ nan_row :: nan_after))
  /\ freq_df text_table = Raise TypeError.
Proof.
  repeat split; try (vm_compute; reflexivity).
  intros E. vm_compute in E.
  assert (H : 0.5%float = 1%float) by congruence.
  revert H. apply float_neq; vm_compute; reflexivity.
Qed.

(** ** MapProjector *)

Section MapProjector.

Lemma matches_none (loc : list Loc.row) (rec : Freq.row) :
  ~ In (Freq.ID rec) (map Loc.ID loc) -> matches loc rec = [].
Proof.
  unfold matches. induction loc as [| l loc IH]; simpl; intros Hno; [reflexivity |].
  destruct (String.eqb_spec (Loc.ID l) (Freq.ID rec)) as [E | _].
  - exfalso. apply Hno. now left.
  - apply IH. intros Hin. apply Hno. now right.
Qed.

Lemma merge_left_orphan (recs : list Freq.row) (loc : list Loc.row) (rec : Freq.row) :
  In rec recs -> ~ In (Freq.ID rec) (map Loc.ID loc) ->
  In (joined rec nan nan) (merge_left recs loc).
Proof.
  intros Hrec Hno. unfold merge_left. apply in_flat_map. exists rec.
  split; [exact Hrec |]. unfold merge_row. rewrite (matches_none loc rec Hno).
  now left.
Qed.

Lemma merge_left_located (recs : list Freq.row) (loc : list Loc.row)
    (rec : Freq.row) (l : Loc.row) :
  In rec recs -> In l loc -> Loc.ID l = Freq.ID rec ->
  In (joined rec (Loc.LATD l) (Loc.LOND l)) (merge_left recs loc).
Proof.
  intros Hrec Hl Hid. unfold merge_left. apply in_flat_map. exists rec.
  split; [exact Hrec |]. unfold merge_row.
  assert (Hm : In l (matches loc rec)).
  { unfold matches. apply filter_In. split; [exact Hl | now apply String.eqb_eq]. }
  destruct (matches loc rec) as [| m ms] eqn:E; [destruct Hm |].
  apply (in_map (fun l => joined rec (Loc.LATD l) (Loc.LOND l))) in Hm. exact Hm.
Qed.

Lemma markers_scattermapbox (selected_ids : list string) (df : list Plot.row)
    (color label : string) :
  markers (scattermapbox selected_ids df color label)
  = map (fun r => (Plot.ID r, (Plot.LATD r, Plot.LOND r))) df.
Proof.
  unfold markers, scattermapbox. simpl.
  induction df as [| r df IH]; simpl; [reflexivity | now rewrite IH].
Qed.

End MapProjector.

(** C3, amended. A station that has a frequency record but no location
    row is kept by the left join, with missing latitude and longitude,
    and it has a marker: in the LOW group when its observed frequency is
    below 0.004, in the HIGH group when it is 0.004 or more.  Loading does
    not fail, and every record that has a location row is joined with
    it. *)
Theorem orphan_kept_C3 (loc : list Loc.row) (df : list Obs.row) (lib : library)
    (recs : list Freq.row) (rec : Freq.row) (selected_ids : list string) :
  freq_df df = Ok recs ->
  In rec recs ->
  ~ In (Freq.ID rec) (map Loc.ID loc) ->
  exists py low high,
    startup loc df = Ok py
    /\ In (joined rec nan nan) (plot_df py)
    /\ data (create_map py lib selected_ids) = [low; high]
    /\ name low = "Low Frequency" /\ name high = "High Frequency"
    /\ (PrimFloat.ltb (Freq.obs_freq rec) 0.004%float = true ->
        In (Freq.ID rec) (text low) /\ In (Freq.ID rec, (nan, nan)) (markers low))
    /\ (PrimFloat.leb 0.004%float (Freq.obs_freq rec) = true ->
        In (Freq.ID rec) (text high) /\ In (Freq.ID rec, (nan, nan)) (markers high))
    /\ (forall rec' l, In rec' recs -> In l loc -> Loc.ID l = Freq.ID rec' ->
        In (joined rec' (Loc.LATD l) (Loc.LOND l)) (plot_df py)).
Proof.
  intros Hdf Hrec Hno.
  pose proof (merge_left_orphan recs loc rec Hrec Hno) as Hkept.
  unfold startup. rewrite Hdf. simpl.
  do 3 eexists. split; [reflexivity |]. simpl.
  split; [exact Hkept |]. split; [reflexivity |].
  split; [reflexivity |]. split; [reflexivity |].
  split; [| split].
  - intros Hlow.
    assert (Hin : In (joined rec nan nan)
                    (low_freq_df {| loc_df := loc; data_df := df;
                                    plot_df := merge_left recs loc |})).
    { unfold low_freq_df. apply filter_In. split; [exact Hkept | exact Hlow]. }
    split.
    + apply (in_map Plot.ID) in Hin. exact Hin.
    + rewrite markers_scattermapbox.
      apply (in_map (fun r => (Plot.ID r, (Plot.LATD r, Plot.LOND r)))) in Hin.
      exact Hin.
  - intros Hhigh.
    assert (Hin : In (joined rec nan nan)
                    (high_freq_df {| loc_df := loc; data_df := df;
                                     plot_df := merge_left recs loc |})).
    { unfold high_freq_df. apply filter_In. split; [exact Hkept | exact Hhigh]. }
    split.
    + apply (in_map Plot.ID) in Hin. exact Hin.
    + rewrite markers_scattermapbox.
      apply (in_map (fun r => (Plot.ID r, (Plot.LATD r, Plot.LOND r)))) in Hin.
      exact Hin.
  - intros rec' l. apply merge_left_located.
Qed.

Lemma orphan_kept_C3_witness :
  exists py low high,
    startup sample_loc sample_data = Ok py
    /\ data (create_map py sample_lib ["S1"]) = [low; high]
    /\ In "S3" (text high)
    /\ In ("S3", (nan, nan)) (markers high).
Proof.
  destruct (orphan_kept_C3 sample_loc sample_data sample_lib
              [ {| Freq.ID := "S1"; Freq.obs_freq := 0.3; Freq.wt_freq := 0.2;
                   Freq.arc_freq := 0.2 |};
                {| Freq.ID := "S2"; Freq.obs_freq := 0; Freq.wt_freq := 0;
                   Freq.arc_freq := 0 |};
                {| Freq.ID := "S3"; Freq.obs_freq := 0.5; Freq.wt_freq := 0.5;
                   Freq.arc_freq := 0.5 |} ]
              {| Freq.ID := "S3"; Freq.obs_freq := 0.5; Freq.wt_freq := 0.5;
                 Freq.arc_freq := 0.5 |} ["S1"])
    as (py & low & high & Hpy & _ & Hfig & _ & _ & _ & Hhigh & _).
  - vm_compute. reflexivity.
  - right. right. left. reflexivity.
  - simpl. intros [H | [H | []]]; discriminate.
  - exists py, low, high. split; [exact Hpy | split; [exact Hfig |]].
    apply Hhigh. vm_compute. reflexivity.
Defined.

(** C3 as stated fails.  S3 has two observation rows and no location row;
    its record is kept by the join and its marker is in the HIGH group,
    with missing coordinates. *)
Lemma orphan_dropped_C3_counterexample :
  ~ In "S3" (map Loc.ID sample_loc)
  /\ startup sample_loc sample_data = Ok sample_py
  /\ ~ (forall t, In t (data (create_map sample_py sample_lib [])) -> ~ In "S3" (text t))
  /\ exists low high,
       data (create_map sample_py sample_lib []) = [low; high]
       /\ name high = "High Frequency"
       /\ markers high = [("S1", (32%float, 100%float)); ("S3", (nan, nan))].
Proof.
  split; [| split; [| split]].
  - simpl. intros [H | [H | []]]; discriminate.
  - vm_compute. reflexivity.
  - intros Hnone.
    apply (Hnone (scattermapbox [] (high_freq_df sample_py) "red" "High Frequency")).
    + right. left. reflexivity.
    + vm_compute. right. left. reflexivity.
  - do 2 eexists. split; [reflexivity | split; [reflexivity |]].
    vm_compute. reflexivity.
Qed.


(** ** SeriesProjector *)

Section SeriesProjector.

Lemma leb_compare (a b : string) : String.leb a b = true <-> String.compare a b <> Gt.
Proof. unfold String.leb. destruct (String.compare a b); split; congruence. Qed.

Lemma leb_trans (a b c : string) :
  String.leb a b = true -> String.leb b c = true -> String.leb a c = true.
Proof.
  rewrite !leb_compare. intros Hab Hbc.
  destruct (String.compare a b) eqn:Eab; [| | congruence].
  - apply String.compare_eq_iff in Eab. now subst.
  - destruct (String.compare b c) eqn:Ebc; [| | congruence].
    + apply String.compare_eq_iff in Ebc. subst. congruence.
    + rewrite (compare_Lt_trans a b c Eab Ebc). discriminate.
Qed.

Lemma leb_false (a b : string) : String.leb a b = false -> String.leb b a = true.
Proof.
  intros Hab. destruct (String.leb_total a b) as [H | H]; [congruence | exact H].
Qed.

Lemma insert_row_perm (r : Obs.row) (rows : list Obs.row) :
  Permutation (insert_row r rows) (r :: rows).
Proof.
  induction rows as [| r' rows IH]; simpl; [reflexivity |].
  destruct (String.leb (Obs.VALIDTIME r) (Obs.VALIDTIME r')); [reflexivity |].
  rewrite IH. apply perm_swap.
Qed.

Lemma insert_row_ascending (r : Obs.row) (rows : list Obs.row) :
  ascending rows -> ascending (insert_row r rows).
Proof.
  unfold ascending. induction rows as [| r' rows IH]; intros Hrows; simpl.
  - repeat constructor.
  - inversion Hrows as [| ? ? Htail Hhead]; subst.
    destruct (String.leb (Obs.VALIDTIME r) (Obs.VALIDTIME r')) eqn:Hle.
    + constructor; [exact Hrows |]. constructor; [exact Hle |].
      rewrite List.Forall_forall in Hhead. apply List.Forall_forall.
      intros x Hx. apply leb_trans with (Obs.VALIDTIME r'); [exact Hle | now apply Hhead].
    + constructor; [now apply IH |].
      apply List.Forall_forall. intros x Hx.
      apply (Permutation_in _ (insert_row_perm r rows)) in Hx.
      destruct Hx as [<- | Hx].
      * now apply leb_false.
      * rewrite List.Forall_forall in Hhead. now apply Hhead.
Qed.

Lemma insertion_sort_sorts : sorts_by_VALIDTIME insertion_sort.
Proof.
  intros rows. unfold insertion_sort. induction rows as [| r rows [IHp IHa]]; simpl.
  - split; [reflexivity | constructor].
  - split.
    + rewrite insert_row_perm. now constructor.
    + now apply insert_row_ascending.
Qed.

Lemma filter_in_window (point_id start_date end_date : string) (rows : list Obs.row) :
  List.filter (fun r => Z.leb 0 (Obs.ft r) && Z.leb (Obs.ft r) 23)
    (List.filter (fun r => String.leb start_date (Obs.VALIDTIME r)
                           && String.leb (Obs.VALIDTIME r) end_date)
       (List.filter (fun r => String.eqb (Obs.ID r) point_id) rows))
  = List.filter (in_window point_id start_date end_date) rows.
Proof.
  unfold in_window. induction rows as [| r rows IH]; simpl; [reflexivity |].
  destruct (String.eqb (Obs.ID r) point_id); simpl; [| exact IH].
  destruct (String.leb start_date (Obs.VALIDTIME r)
            && String.leb (Obs.VALIDTIME r) end_date); simpl; [| exact IH].
  destruct (Z.leb 0 (Obs.ft r) && Z.leb (Obs.ft r) 23); simpl; [| exact IH].
  now rewrite IH.
Qed.

Lemma in_window_spec (point_id start_date end_date : string) (r : Obs.row) :
  in_window point_id start_date end_date r = true <->
  Obs.ID r = point_id
  /\ String.leb start_date (Obs.VALIDTIME r) = true
  /\ String.leb (Obs.VALIDTIME r) end_date = true
  /\ (0 <= Obs.ft r <= 23)%Z.
Proof.
  unfold in_window.
  rewrite !andb_true_iff, String.eqb_eq, !Z.leb_le. tauto.
Qed.

Lemma site_chart_series (point_id selected_case : string) (rows : list Obs.row) :
  match rows with
  | [] =>
      series (site_chart point_id selected_case rows) = []
      /\ shapes (site_chart point_id selected_case rows) = []
  | _ :: _ => series (site_chart point_id selected_case rows) = series_of rows
  end.
Proof. destruct rows; simpl; [split |]; reflexivity. Qed.

Lemma Forall2_map_self {A B : Type} (P : A -> B -> Prop) (f : A -> B) (l : list A) :
  (forall a, In a l -> P a (f a)) -> Forall2 P l (map f l).
Proof.
  induction l as [| a l IH]; simpl; intros H; constructor.
  - apply H. now left.
  - apply IH. intros a' Ha'. apply H. now right.
Qed.

End SeriesProjector.

(** C5, amended. For a selection and an active case window the callback
    returns one chart per selected station, in the order of the
    selection.  The rows behind the chart of a station are the rows of
    the observation table with that station id, a timestamp that, as a
    string, is not below the window's start date and not above its end
    date, and a forecast hour from 0 to 23: the same rows with the same
    multiplicities, in ascending order of timestamp.  The three series of
    the chart are the timestamps and the values of these rows, and a
    station without such a row has a chart without series. *)
Theorem window_filter_C5 (py : tables) (lib : library)
    (station_ids : list string) (selected_case start_date end_date : string) :
  sorts_by_VALIDTIME (sort_values lib) ->
  station_ids <> [] ->
  cases_getitem cases selected_case = Ok (start_date, end_date) ->
  exists figs,
    update_timeseries py lib station_ids selected_case = Ok (Graphs figs)
    /\ Forall2
         (fun point_id ch =>
            exists rows,
              (forall r,
                 In r rows <->
                 In r (data_df py)
                 /\ Obs.ID r = point_id
                 /\ String.leb start_date (Obs.VALIDTIME r) = true
                 /\ String.leb (Obs.VALIDTIME r) end_date = true
                 /\ (0 <= Obs.ft r <= 23)%Z)
              /\ Permutation rows
                   (List.filter (in_window point_id start_date end_date) (data_df py))
              /\ ascending rows
              /\ match rows with
                 | [] => series ch = [] /\ shapes ch = []
                 | _ :: _ =>
                     series ch
                     = [ {| x := map Obs.VALIDTIME rows;
                            y := map Obs.ObsGustSpd1h rows; scatter_name := "Obs" |};
                         {| x := map Obs.VALIDTIME rows;
                            y := map Obs.wt_operation rows; scatter_name := "WT" |};
                         {| x := map Obs.VALIDTIME rows;
                            y := map Obs.arc_gust_pred rows; scatter_name := "ARC" |} ]
                 end)
         station_ids figs.
Proof.
  intros Hsort Hids Hcase. unfold update_timeseries.
  destruct station_ids as [| id0 ids]; [congruence |].
  rewrite Hcase. cbn [mbind result_bind fst snd].
  eexists. split; [reflexivity |].
  apply Forall2_map_self. intros point_id _.
  exists (site_df py lib point_id start_date end_date).
  assert (Hperm : Permutation (site_df py lib point_id start_date end_date)
                    (List.filter (in_window point_id start_date end_date) (data_df py))).
  { unfold site_df. rewrite filter_in_window. apply Hsort. }
  split; [| split; [exact Hperm | split]].
  - intros r. split.
    + intros Hr. apply (Permutation_in _ Hperm) in Hr.
      apply filter_In in Hr as [Hin Hw]. apply in_window_spec in Hw. tauto.
    + intros (Hin & Hw). apply (Permutation_in _ (Permutation_sym Hperm)).
      apply filter_In. split; [exact Hin | now apply in_window_spec].
  - unfold site_df. apply Hsort.
  - apply site_chart_series.
Qed.

Lemma window_filter_C5_witness :
  exists figs,
    update_timeseries sample_py sample_lib ["S1"] "Case 2: 2025/02/13 - 2025/02/15"
    = Ok (Graphs figs)
    /\ map (fun ch => map x (series ch)) figs
       = [ [ ["2025-02-13 00:00"; "2025-02-13 06:00"; "2025-02-13 12:00";
              "2025-02-14 12:00"; "2025-02-14 12:00"; "2025-02-15"];
             ["2025-02-13 00:00"; "2025-02-13 06:00"; "2025-02-13 12:00";
              "2025-02-14 12:00"; "2025-02-14 12:00"; "2025-02-15"];
             ["2025-02-13 00:00"; "2025-02-13 06:00"; "2025-02-13 12:00";
              "2025-02-14 12:00"; "2025-02-14 12:00"; "2025-02-15"] ] ].
Proof.
  destruct (window_filter_C5 sample_py sample_lib ["S1"]
              "Case 2: 2025/02/13 - 2025/02/15" "2025-02-13" "2025-02-15")
    as (figs & Hfigs & _).
  - apply insertion_sort_sorts.
  - discriminate.
  - reflexivity.
  - exists figs. split; [exact Hfigs |].
    vm_compute in Hfigs. injection Hfigs as <-. vm_compute. reflexivity.
Defined.

(** C5 as stated fails.  In the window from 2025-02-13 to 2025-02-15 the
    row of S1 at 06:00 on 2025-02-15, forecast hour 6, lies between the
    start and end dates, the end date included, yet the filter of the
    callback rejects it and the chart of S1 does not show it: as a string
    its timestamp is above the end date. *)
Lemma window_filter_C5_counterexample :
  In (obs "S1" "2025-02-15 06:00" 6 8 7 6) (data_df sample_py)
  /\ in_dates "2025-02-13" "2025-02-15" (obs "S1" "2025-02-15 06:00" 6 8 7 6) = true
  /\ in_window "S1" "2025-02-13" "2025-02-15" (obs "S1" "2025-02-15 06:00" 6 8 7 6)
     = false
  /\ ~ In (obs "S1" "2025-02-15 06:00" 6 8 7 6)
         (site_df sample_py sample_lib "S1" "2025-02-13" "2025-02-15")
  /\ exists ch,
       update_timeseries sample_py sample_lib ["S1"] "Case 2: 2025/02/13 - 2025/02/15"
       = Ok (Graphs [ch])
       /\ forall s, In s (series ch) -> ~ In "2025-02-15 06:00" (x s).
Proof.
  split; [| split; [| split; [| split]]].
  - vm_compute. do 10 right. left. reflexivity.
  - vm_compute. reflexivity.
  - vm_compute. reflexivity.
  - intros Hin.
    assert (Hp : Permutation
                   (site_df sample_py sample_lib "S1" "2025-02-13" "2025-02-15")
                   (List.filter (in_window "S1" "2025-02-13" "2025-02-15")
                      (data_df sample_py))).
    { unfold site_df. rewrite filter_in_window. apply insertion_sort_sorts. }
    apply (Permutation_in _ Hp) in Hin. apply filter_In in Hin as [_ Hw].
    vm_compute in Hw. discriminate.
  - eexists. split; [vm_compute; reflexivity |].
    intros s Hs Hx. simpl in Hs.
    destruct Hs as [<- | [<- | [<- | []]]]; simpl in Hx;
      repeat (destruct Hx as [Hx | Hx]; [discriminate Hx |]); exact Hx.
Qed.

(** * Further properties *)

(** ** The aggregation as a function of the table *)

Section Aggregation.

Lemma increasing_head (k : string) (ks : list string) (x : string) :
  increasing (k :: ks) -> In x ks -> String.compare k x = Lt.
Proof.
  intros Hks Hx. inversion Hks as [| ? ? _ Hhead]; subst.
  rewrite List.Forall_forall in Hhead. now apply Hhead.
Qed.

Lemma increasing_tail (k : string) (ks : list string) :
  increasing (k :: ks) -> increasing ks.
Proof. intros Hks. now inversion Hks. Qed.

Lemma compare_Lt_irrefl (a : string) : String.compare a a <> Lt.
Proof. rewrite compare_refl. discriminate. Qed.

(** Two strictly ascending lists with the same elements are equal. *)
Lemma increasing_ext (ks ks' : list string) :
  increasing ks -> increasing ks' -> (forall x, In x ks <-> In x ks') -> ks = ks'.
Proof.
  revert ks'. induction ks as [| k ks IH]; intros [| k' ks'] Hks Hks' Hsame.
  - reflexivity.
  - destruct (proj2 (Hsame k')); now left.
  - destruct (proj1 (Hsame k)); now left.
  - assert (Hk : k = k').
    { destruct (proj1 (Hsame k) (or_introl eq_refl)) as [E | Hin]; [now subst |].
      destruct (proj2 (Hsame k') (or_introl eq_refl)) as [E | Hin']; [exact E |].
      exfalso. apply (compare_Lt_irrefl k).
      apply compare_Lt_trans with k'.
      - now apply (increasing_head k ks k').
      - now apply (increasing_head k' ks' k). }
    subst k'. f_equal.
    apply IH; [now apply increasing_tail with k | now apply increasing_tail with k |].
    intros x. split; intros Hx.
    + destruct (proj1 (Hsame x) (or_intror Hx)) as [E | Hin]; [| exact Hin].
      subst x. exfalso. apply (compare_Lt_irrefl k).
      now apply (increasing_head k ks k).
    + destruct (proj2 (Hsame x) (or_intror Hx)) as [E | Hin]; [| exact Hin].
      subst x. exfalso. apply (compare_Lt_irrefl k).
      now apply (increasing_head k ks' k).
Qed.

Lemma filter_perm {A : Type} (f : A -> bool) (l l' : list A) :
  Permutation l l' -> Permutation (List.filter f l) (List.filter f l').
Proof.
  induction 1 as [| a l l' _ IH | a b l | l l' l'' _ IH1 _ IH2]; simpl.
  - reflexivity.
  - destruct (f a); [now constructor | exact IH].
  - destruct (f a), (f b); try reflexivity. apply perm_swap.
  - now transitivity (List.filter f l').
Qed.

Lemma group_keys_perm (df df' : list Obs.row) :
  Permutation df df' -> group_keys df = group_keys df'.
Proof.
  intros Hp. apply increasing_ext; try apply group_keys_increasing.
  intros k. rewrite !group_keys_In.
  assert (Hm : Permutation (map Obs.ID df) (map Obs.ID df')) by now apply Permutation_map.
  split; intros Hk.
  - exact (Permutation_in _ Hm Hk).
  - exact (Permutation_in _ (Permutation_sym Hm) Hk).
Qed.

Lemma group_of_perm (df df' : list Obs.row) (k : string) :
  Permutation df df' -> Permutation (group_of df k) (group_of df' k).
Proof. apply filter_perm. Qed.

Lemma crossings_perm (column : Obs.row -> cell) (g g' : list Obs.row) :
  Permutation g g' -> crossings column g = crossings column g'.
Proof.
  intros Hp. unfold crossings. apply Permutation_length. now apply filter_perm.
Qed.

Lemma numbers_perm (df df' : list Obs.row) :
  Permutation df df' -> forallb numbers df = forallb numbers df'.
Proof.
  intros Hp.
  destruct (forallb numbers df) eqn:E, (forallb numbers df') eqn:E'; try reflexivity.
  - rewrite forallb_forall in E.
    assert (forallb numbers df' = true); [| congruence].
    apply forallb_forall. intros r Hr. apply E.
    exact (Permutation_in _ (Permutation_sym Hp) Hr).
  - rewrite forallb_forall in E'.
    assert (forallb numbers df = true); [| congruence].
    apply forallb_forall. intros r Hr. apply E'.
    exact (Permutation_in _ Hp Hr).
Qed.

Lemma rows_perm (df df' : list Obs.row) (ks : list string) (recs recs' : list Freq.row) :
  Permutation df df' ->
  Forall2 (fun k rec => freq_row k (group_of df k) = Ok rec) ks recs ->
  Forall2 (fun k rec => freq_row k (group_of df' k) = Ok rec) ks recs' ->
  recs = recs'.
Proof.
  intros Hp H. revert recs'.
  induction H as [| k rec ks recs Hrow _ IH]; intros recs' H'.
  - now inversion H'.
  - inversion H' as [| ? rec' ? recs'' Hrow' Hrest]; subst.
    f_equal; [| now apply IH].
    apply freq_row_Ok in Hrow, Hrow'. rewrite Hrow, Hrow'.
    pose proof (group_of_perm df df' k Hp) as Hg.
    rewrite (crossings_perm Obs.ObsGustSpd1h _ _ Hg),
            (crossings_perm Obs.wt_operation _ _ Hg),
            (crossings_perm Obs.arc_gust_pred _ _ Hg),
            (Permutation_length Hg).
    reflexivity.
Qed.

End Aggregation.

(** X2. The aggregation does not depend on the order of the rows of the
    observation table: two tables with the same rows give the same
    records, or both raise. *)
Theorem freq_df_row_order_X2 (df df' : list Obs.row) :
  Permutation df df' -> freq_df df = freq_df df'.
Proof.
  intros Hp. pose proof (numbers_perm df df' Hp) as Hnum.
  destruct (forallb numbers df) eqn:E.
  - destruct df as [| r df].
    { apply Permutation_nil in Hp. now subst. }
    assert (Hne' : df' <> []).
    { intros ->. apply Permutation_sym, Permutation_nil in Hp. discriminate. }
    destruct (freq_df_numbers (r :: df) ltac:(discriminate) E) as [recs Hrecs].
    destruct (freq_df_numbers df' Hne' (eq_sym Hnum)) as [recs' Hrecs'].
    rewrite Hrecs, Hrecs'. f_equal.
    apply freq_df_rows in Hrecs, Hrecs'.
    rewrite <- (group_keys_perm (r :: df) df' Hp) in Hrecs'.
    exact (rows_perm (r :: df) df' _ recs recs' Hp Hrecs Hrecs').
  - rewrite (freq_df_raises df E), (freq_df_raises df' (eq_sym Hnum)). reflexivity.
Qed.

Lemma freq_df_row_order_X2_witness :
  freq_df sample_data = freq_df (rev sample_data).
Proof.
  apply (freq_df_row_order_X2 sample_data (rev sample_data)).
  apply Permutation_rev.
Defined.

(** X3. The aggregation returns exactly when the table has a row and the
    three signals of every row are float64 values.  On a table without a
    row it raises ValueError; on a table where some cell holds text it
    raises TypeError; it raises nothing else. *)
Theorem freq_df_total_X3 (df : list Obs.row) :
  ((exists recs, freq_df df = Ok recs)
   <-> df <> [] /\ (forall r, In r df -> numbers r = true))
  /\ (freq_df df = Raise ValueError <-> df = [])
  /\ (freq_df df = Raise TypeError <-> exists r, In r df /\ numbers r = false)
  /\ (forall e, freq_df df = Raise e -> e = ValueError \/ e = TypeError).
Proof.
  assert (Hbad : forallb numbers df = false <-> exists r, In r df /\ numbers r = false).
  { split.
    - induction df as [| r df IH]; simpl; [discriminate |].
      destruct (numbers r) eqn:Hr; simpl.
      + intros E. destruct (IH E) as (r' & Hin & Hr'). eauto.
      + intros _. eauto.
    - intros (r & Hin & Hr). destruct (forallb numbers df) eqn:E; [| reflexivity].
      rewrite forallb_forall in E. rewrite (E r Hin) in Hr. discriminate. }
  destruct df as [| r0 df].
  { split; [split | split; [split | split; [split |]]].
    - intros [recs H]. discriminate H.
    - intros [H _]. congruence.
    - reflexivity.
    - reflexivity.
    - discriminate.
    - intros (r & Hin & _). destruct Hin.
    - intros e [= <-]. now left. }
  destruct (forallb numbers (r0 :: df)) eqn:E.
  - destruct (freq_df_numbers (r0 :: df) ltac:(discriminate) E) as [recs Hrecs].
    split; [split | split; [split | split; [split |]]].
    + intros _. split; [discriminate | now apply forallb_forall].
    + intros _. eauto.
    + rewrite Hrecs. discriminate.
    + discriminate.
    + rewrite Hrecs. discriminate.
    + intros Hex. apply Hbad in Hex. discriminate.
    + intros e He. rewrite Hrecs in He. discriminate.
  - pose proof (freq_df_raises (r0 :: df) E) as Hraise.
    split; [split | split; [split | split; [split |]]].
    + intros [recs Hrecs]. rewrite Hraise in Hrecs. discriminate.
    + intros [_ Hall]. apply forallb_forall in Hall. congruence.
    + rewrite Hraise. discriminate.
    + discriminate.
    + intros _. now apply Hbad.
    + intros _. exact Hraise.
    + intros e He. rewrite Hraise in He. injection He as <-. now right.
Qed.

(** ** The join and the two buckets *)

Section Join.





End Join.


Section Buckets.

Lemma compare_cont_opp (m1 m2 : positive) :
  PosDef.Pos.compare_cont Eq m2 m1 = CompOpp (PosDef.Pos.compare_cont Eq m1 m2).
Proof. symmetry. apply (Pos.compare_cont_antisym m1 m2 Eq). Qed.

(** A float against a positive finite threshold: below it, at or above
    it, or not a number. *)
Lemma SF_threshold_cases (F : spec_float) (m0 : positive) (e0 : Z) :
  (SFltb F (S754_finite false m0 e0) = true /\ SFleb (S754_finite false m0 e0) F = false
   /\ SFeqb F F = true)
  \/ (SFltb F (S754_finite false m0 e0) = false /\ SFleb (S754_finite false m0 e0) F = true
      /\ SFeqb F F = true)
  \/ (SFltb F (S754_finite false m0 e0) = false /\ SFleb (S754_finite false m0 e0) F = false
      /\ SFeqb F F = false).
Proof.
  destruct F as [s | s | | s m e]; unfold SFltb, SFleb, SFeqb; cbn [SFcompare].
  - destruct s; auto.
  - destruct s; auto.
  - auto.
  - rewrite Z.compare_refl, Pos.compare_cont_refl.
    destruct s.
    + cbn [CompOpp]. auto.
    + rewrite (Z.compare_antisym e e0), (compare_cont_opp m m0).
      destruct (e ?= e0)%Z; cbn [CompOpp]; auto.
      destruct (PosDef.Pos.compare_cont Eq m m0); cbn [CompOpp]; auto.
Qed.

Lemma threshold_SF : Prim2SF 0.004%float = S754_finite false 4611686018427388 (-60).
Proof. vm_compute. reflexivity. Qed.

Lemma threshold_cases (f : float) :
  (PrimFloat.ltb f 0.004%float = true /\ PrimFloat.leb 0.004%float f = false
   /\ PrimFloat.is_nan f = false)
  \/ (PrimFloat.ltb f 0.004%float = false /\ PrimFloat.leb 0.004%float f = true
      /\ PrimFloat.is_nan f = false)
  \/ (PrimFloat.ltb f 0.004%float = false /\ PrimFloat.leb 0.004%float f = false
      /\ PrimFloat.is_nan f = true).
Proof.
  unfold PrimFloat.is_nan.
  rewrite ltb_spec, leb_spec, FloatAxioms.eqb_spec, threshold_SF.
  destruct (SF_threshold_cases (Prim2SF f) 4611686018427388 (-60))
    as [(-> & -> & ->) | [(-> & -> & ->) | (-> & -> & ->)]]; auto.
Qed.

End Buckets.

(** X5. The two marker groups split the joined table: no row is in both,
    a row whose observed frequency is a number is in exactly one of them,
    HIGH from 0.004 included, and a row whose observed frequency is not a
    number is in neither. *)
Theorem buckets_split_X5 (py : tables) (r : Plot.row) :
  In r (plot_df py) ->
  ~ (In r (high_freq_df py) /\ In r (low_freq_df py))
  /\ (PrimFloat.is_nan (Plot.obs_freq r) = false ->
      In r (high_freq_df py) \/ In r (low_freq_df py))
  /\ (PrimFloat.is_nan (Plot.obs_freq r) = true ->
      ~ In r (high_freq_df py) /\ ~ In r (low_freq_df py))
  /\ (Plot.obs_freq r = 0.004%float -> In r (high_freq_df py)).
Proof.
  intros Hr. unfold high_freq_df, low_freq_df. rewrite !filter_In.
  destruct (threshold_cases (Plot.obs_freq r))
    as [(Hlt & Hle & Hnan) | [(Hlt & Hle & Hnan) | (Hlt & Hle & Hnan)]];
    rewrite Hlt, Hle, Hnan; (split; [| split; [| split]]).
  all: try (intros [[_ H] _]; discriminate).
  all: try (intros [_ [_ H]]; discriminate).
  all: try (intros H; discriminate H).
  all: try (intros _; tauto).
  all: try (intros _; split; intros [_ H]; discriminate).
  - intros E. rewrite E in Hlt. vm_compute in Hlt. discriminate.
  - intros E. rewrite E in Hle. vm_compute in Hle. discriminate.
Qed.

Lemma buckets_split_X5_witness :
  In (joined {| Freq.ID := "S2"; Freq.obs_freq := 0; Freq.wt_freq := 0;
                Freq.arc_freq := 0 |} 50 144) (low_freq_df sample_py)
  /\ ~ In (joined {| Freq.ID := "S2"; Freq.obs_freq := 0; Freq.wt_freq := 0;
                     Freq.arc_freq := 0 |} 50 144) (high_freq_df sample_py).
Proof.
  destruct (buckets_split_X5 sample_py
              (joined {| Freq.ID := "S2"; Freq.obs_freq := 0; Freq.wt_freq := 0;
                         Freq.arc_freq := 0 |} 50 144))
    as (Hboth & Hone & _ & _).
  - vm_compute. right. left. reflexivity.
  - assert (Hlow : In (joined {| Freq.ID := "S2"; Freq.obs_freq := 0; Freq.wt_freq := 0;
                                 Freq.arc_freq := 0 |} 50 144) (low_freq_df sample_py)).
    { vm_compute. left. reflexivity. }
    split; [exact Hlow |]. intros Hhigh. apply Hboth. split; assumption.
Defined.

(** ** The map figure *)

Section MapFigure.

Variable py : tables.
Variable lib : library.

Lemma scattermapbox_aligned (selected_ids : list string) (df : list Plot.row)
    (color label : string) :
  let t := scattermapbox selected_ids df color label in
  length (lat t) = length (text t)
  /\ length (lon t) = length (text t)
  /\ length (marker_opacity t) = length (text t)
  /\ forall i id,
       nth_error (text t) i = Some id ->
       nth_error (marker_opacity t) i
       = Some (if contains selected_ids id then 1.0%float else 0.4%float).
Proof.
  simpl. rewrite !length_map. repeat split.
  intros i id Hid. rewrite nth_error_map, Hid. reflexivity.
Qed.

Lemma create_map_traces (selected_ids : list string) (t : trace) :
  In t (data (create_map py lib selected_ids)) ->
  t = scattermapbox selected_ids (low_freq_df py) "blue" "Low Frequency"
  \/ t = scattermapbox selected_ids (high_freq_df py) "red" "High Frequency".
Proof. simpl. intuition. Qed.

End MapFigure.

(** X6. In the map figure the four arrays of each marker group have the
    same length; the opacity of a marker is 1.0 when its station is
    selected and 0.4 otherwise; and the labels and positions of the
    markers, and the default view, do not depend on the selection. *)
Theorem create_map_markers_X6 (py : tables) (lib : library)
    (selected_ids others : list string) :
  (forall t, In t (data (create_map py lib selected_ids)) ->
     length (lat t) = length (text t)
     /\ length (lon t) = length (text t)
     /\ length (marker_opacity t) = length (text t)
     /\ forall i id, nth_error (text t) i = Some id ->
          (In id selected_ids -> nth_error (marker_opacity t) i = Some 1.0%float)
          /\ (~ In id selected_ids -> nth_error (marker_opacity t) i = Some 0.4%float))
  /\ map markers (data (create_map py lib selected_ids))
     = map markers (data (create_map py lib others))
  /\ mapbox_zoom (create_map py lib selected_ids) = mapbox_zoom (create_map py lib others)
  /\ mapbox_center (create_map py lib selected_ids) = mapbox_center (create_map py lib others).
Proof.
  split; [| split; [reflexivity | split; reflexivity]].
  intros t Ht.
  { destruct (create_map_traces py lib selected_ids t Ht) as [-> | ->];
      match goal with
      | |- context [scattermapbox ?s ?df ?c ?n] =>
          destruct (scattermapbox_aligned s df c n) as (H1 & H2 & H3 & H4)
      end;
      (split; [exact H1 | split; [exact H2 | split; [exact H3 |]]]);
      intros i id Hid; rewrite (H4 i id Hid); split; intros Hsel.
    + apply contains_In in Hsel. now rewrite Hsel.
    + apply contains_not_In in Hsel. now rewrite Hsel.
    + apply contains_In in Hsel. now rewrite Hsel.
    + apply contains_not_In in Hsel. now rewrite Hsel. }
Qed.


(** ** Viewport events in sequence *)

Section ViewportSequence.

Variable py : tables.
Variable lib : library.

Lemma union_nonempty (rd1 rd2 : gmap string json) : rd2 <> ∅ -> rd2 ∪ rd1 <> ∅.
Proof.
  intros Hne E. apply Hne. apply map_eq. intros k. rewrite lookup_empty.
  apply (f_equal (fun m : gmap string json => m !! k)) in E.
  rewrite lookup_empty in E. apply lookup_union_None in E. tauto.
Qed.

Lemma carried_after (rd1 rd2 st1 : gmap string json) (event_key key : string)
    (current_state : option (gmap string json)) (default : json) :
  st1 !! key = Some (carried rd1 event_key current_state key default) ->
  carried rd2 event_key (Some st1) key default
  = carried (rd2 ∪ rd1) event_key current_state key default.
Proof.
  intros Hst. unfold carried. rewrite Hst.
  destruct (rd2 !! event_key) as [v |] eqn:E2.
  - now rewrite (lookup_union_Some_l rd2 rd1 event_key v E2).
  - rewrite (lookup_union_r rd2 rd1 event_key E2). reflexivity.
Qed.

Lemma save_map_state_twice (rd1 rd2 : gmap string json)
    (current_state : option (gmap string json)) :
  rd1 <> ∅ -> rd2 <> ∅ ->
  save_map_state py lib (Some rd2) (save_map_state py lib (Some rd1) current_state)
  = save_map_state py lib (Some (rd2 ∪ rd1)) current_state.
Proof.
  intros H1 H2.
  rewrite (save_map_state_nonempty py lib rd1 current_state H1).
  rewrite (save_map_state_nonempty py lib rd2 _ H2).
  rewrite (save_map_state_nonempty py lib (rd2 ∪ rd1) current_state (union_nonempty rd1 rd2 H2)).
  rewrite (carried_after rd1 rd2 _ "mapbox.zoom" "zoom" current_state (JNum 7%float))
    by apply lookup_insert_eq.
  rewrite (carried_after rd1 rd2 _ "mapbox.center" "center" current_state (mean_center py lib))
    by (rewrite lookup_insert_ne by discriminate; apply lookup_insert_eq).
  reflexivity.
Qed.

End ViewportSequence.

(** X8. Two viewport events in a row act as the single event that has the
    fields of the later one and, for the fields it lacks, those of the
    earlier one.  Processing the same event twice stores what processing
    it once stores. *)
Theorem save_map_state_sequence_X8 (py : tables) (lib : library)
    (rd1 rd2 : gmap string json)
    (current_state : option (gmap string json)) :
  rd1 <> ∅ -> rd2 <> ∅ ->
  save_map_state py lib (Some rd2) (save_map_state py lib (Some rd1) current_state)
  = save_map_state py lib (Some (rd2 ∪ rd1)) current_state
  /\ save_map_state py lib (Some rd1) (save_map_state py lib (Some rd1) current_state)
     = save_map_state py lib (Some rd1) current_state.
Proof.
  intros H1 H2. split.
  - now apply save_map_state_twice.
  - rewrite (save_map_state_twice py lib rd1 rd1 current_state H1 H1).
    now rewrite (idemp_L (∪) rd1).
Qed.

Lemma save_map_state_sequence_X8_witness :
  save_map_state sample_py sample_lib (Some (<["mapbox.center" := JObj [("lat", JNum 35%float);
                                                             ("lon", JNum 139%float)]]> ∅))
    (save_map_state sample_py sample_lib (Some (<["mapbox.zoom" := JNum 9%float]> ∅)) None)
  = Some (<["zoom" := JNum 9%float]>
            (<["center" := JObj [("lat", JNum 35%float); ("lon", JNum 139%float)]]> ∅)).
Proof.
  destruct (save_map_state_sequence_X8 sample_py sample_lib
              (<["mapbox.zoom" := JNum 9%float]> ∅)
              (<["mapbox.center" := JObj [("lat", JNum 35%float);
                                          ("lon", JNum 139%float)]]> ∅) None)
    as [-> _].
  - apply (lookup_nonempty _ "mapbox.zoom" (JNum 9%float)). apply lookup_insert_eq.
  - apply (lookup_nonempty _ "mapbox.center"
             (JObj [("lat", JNum 35%float); ("lon", JNum 139%float)])).
    apply lookup_insert_eq.
  - vm_compute. reflexivity.
Defined.

(** ** Invariants of the event loop *)

Section EventLoop.

Variable py : tables.
Variable lib : library.

(** The three ways the click callback can answer. *)
Lemma update_station_list_Ok (trig : option string) (clickData : option click)
    (n : Z) (sel sel' : list string) :
  update_station_list trig clickData n sel = Ok sel' ->
  sel' = [] \/ sel' = sel \/ exists id, ~ In id sel /\ sel' = sel ++ [id].
Proof.
  unfold update_station_list.
  destruct (decide (trig = Some "reset-button")); [intros [= <-]; now left |].
  destruct clickData as [cd |]; [| intros [= <-]; auto].
  destruct (points cd) as [[| p ps] |]; [discriminate | | intros [= <-]; auto].
  destruct (point_text p) as [id |]; [| discriminate].
  destruct (contains sel id) eqn:Hc; intros [= <-]; [auto |].
  right. right. exists id. split; [now apply contains_not_In | reflexivity].
Qed.

Lemma update_station_list_NoDup (trig : option string) (clickData : option click)
    (n : Z) (sel sel' : list string) :
  NoDup sel -> update_station_list trig clickData n sel = Ok sel' -> NoDup sel'.
Proof.
  intros Hnd H. apply update_station_list_Ok in H as [-> | [-> | (id & Hid & ->)]].
  - apply NoDup_nil_2.
  - exact Hnd.
  - now apply NoDup_snoc.
Qed.

Lemma run_invariant (Inv : app -> Prop) (allowed : event -> bool) :
  (forall ev st, allowed ev = true -> Inv st -> Inv (tick py lib ev st)) ->
  forall evs st,
    forallb allowed evs = true -> Inv st -> Inv (run py lib evs st).
Proof.
  intros Hstep evs. induction evs as [| ev evs IH]; intros st Hall Hst; [exact Hst |].
  simpl in Hall. apply andb_prop in Hall as [Hev Hall].
  change (run py lib (ev :: evs) st)
    with (run py lib evs (tick py lib ev st)).
  apply IH; [exact Hall | now apply Hstep].
Qed.

Lemma forallb_any (evs : list event) : forallb (fun _ => true) evs = true.
Proof. induction evs; simpl; auto. Qed.

Lemma tick_selection_NoDup (ev : event) (st : app) :
  NoDup (selected_station_ids_data st) ->
  NoDup (selected_station_ids_data (tick py lib ev st)).
Proof.
  intros Hnd. destruct ev as [cd | | label | partial]; simpl; try exact Hnd.
  - destruct (update_station_list (Some "station-map") (Some cd)
                (reset_button_n_clicks st) (selected_station_ids_data st))
      as [sel' | e] eqn:E; simpl; [| exact Hnd].
    exact (update_station_list_NoDup _ _ _ _ _ Hnd E).
  - apply NoDup_nil_2.
Qed.

Lemma save_map_state_full (rd : gmap string json)
    (current_state : option (gmap string json)) :
  absent_or_full current_state ->
  absent_or_full (save_map_state py lib (Some rd) current_state).
Proof.
  intros Hcur. destruct (decide (rd = ∅)) as [-> | Hne]; [exact Hcur |].
  rewrite (save_map_state_nonempty py lib rd current_state Hne). simpl.
  rewrite !dom_insert_L, dom_empty_L. set_solver.
Qed.

Lemma tick_map_state_full (ev : event) (st : app) :
  absent_or_full (map_state_data st) ->
  absent_or_full (map_state_data (tick py lib ev st)).
Proof.
  intros Hst. destruct ev as [cd | | label | partial]; simpl; try exact Hst.
  - destruct (update_station_list _ _ _ _); exact Hst.
  - now apply save_map_state_full.
Qed.

Lemma tick_figure_unpanned (ev : event) (st : app) :
  is_viewportChanged ev = false ->
  map_state_data st = None
  /\ station_map_figure st = create_map py lib (selected_station_ids_data st) ->
  map_state_data (tick py lib ev st) = None
  /\ station_map_figure (tick py lib ev st)
     = create_map py lib (selected_station_ids_data (tick py lib ev st)).
Proof.
  intros Hev [Hms Hfig].
  destruct ev as [cd | | label | partial]; simpl; try discriminate.
  - destruct (update_station_list _ _ _ _); simpl; rewrite ?Hms; auto.
  - rewrite Hms. auto.
  - auto.
Qed.

Lemma cases_getitem_known (registry : list (string * (string * string)))
    (label : string) :
  existsb (String.eqb label) (map fst registry) = true ->
  exists window, cases_getitem registry label = Ok window /\ In (label, window) registry.
Proof.
  induction registry as [| [l w] registry IH]; simpl; [discriminate |].
  rewrite (String.eqb_sym label l).
  destruct (String.eqb_spec l label) as [-> | Hne]; simpl.
  - intros _. exists w. split; [reflexivity | now left].
  - intros Hin. destruct (IH Hin) as (w' & Hw' & Hin'). exists w'. split; [exact Hw' | now right].
Qed.

Lemma cases_getitem_unknown (registry : list (string * (string * string)))
    (label : string) :
  existsb (String.eqb label) (map fst registry) = false ->
  cases_getitem registry label = Raise KeyError.
Proof.
  induction registry as [| [l w] registry IH]; simpl; [reflexivity |].
  rewrite (String.eqb_sym label l).
  destruct (String.eqb l label); simpl; [discriminate | exact IH].
Qed.

Lemma update_timeseries_known (station_ids : list string) (label : string) :
  existsb (String.eqb label) (map fst cases) = true ->
  exists ch, update_timeseries py lib station_ids label = Ok ch.
Proof.
  intros Hknown. unfold update_timeseries.
  destruct station_ids as [| id ids]; [eauto |].
  destruct (cases_getitem_known cases label Hknown) as (w & -> & _). simpl. eauto.
Qed.

Lemma selection_written_charts (st : app) (ids : list string) :
  existsb (String.eqb (case_selector_value st)) (map fst cases) = true ->
  charts_current py lib (selection_written py lib st ids).
Proof.
  intros Hknown. split; [exact Hknown |]. simpl.
  destruct (update_timeseries_known ids (case_selector_value st) Hknown) as [ch ->].
  reflexivity.
Qed.

Lemma tick_charts_current (ev : event) (st : app) :
  known_case ev = true -> charts_current py lib st ->
  charts_current py lib (tick py lib ev st).
Proof.
  intros Hev [Hknown Hcur]. destruct ev as [cd | | label | partial]; simpl.
  - destruct (update_station_list _ _ _ _); simpl.
    + now apply (selection_written_charts (set_clickData st cd)).
    + split; assumption.
  - now apply (selection_written_charts (press_reset st)).
  - simpl in Hev. split; [exact Hev |]. simpl.
    destruct (update_timeseries_known (selected_station_ids_data st) label Hev) as [ch ->].
    reflexivity.
  - split; assumption.
Qed.

End EventLoop.

(** X9. In every state the event loop can reach from the initial one,
    whatever the events and whatever the click payloads, the selection
    has no duplicates. *)
Theorem selection_NoDup_X9 (py : tables) (lib : library)
    (evs : list event) :
  NoDup (selected_station_ids_data
           (run py lib evs (initial py lib))).
Proof.
  apply (run_invariant py lib
           (fun st => NoDup (selected_station_ids_data st)) (fun _ => true)).
  - intros ev st _. apply tick_selection_NoDup.
  - apply forallb_any.
  - apply NoDup_nil_2.
Qed.

(** X10. In every reachable state the stored viewport is absent or holds
    exactly a zoom and a centre: no event leaves it with one of the
    two. *)
Theorem map_state_full_X10 (py : tables) (lib : library)
    (evs : list event) :
  absent_or_full (map_state_data (run py lib evs (initial py lib))).
Proof.
  apply (run_invariant py lib
           (fun st => absent_or_full (map_state_data st)) (fun _ => true)).
  - intros ev st _. apply tick_map_state_full.
  - apply forallb_any.
  - exact I.
Qed.

(** X11. Until the first viewport event, in every reachable state the
    stored viewport is absent and the map figure is exactly the one
    [create_map] draws for the selection currently in the store. *)
Theorem figure_current_X11 (py : tables) (lib : library) (evs : list event) :
  forallb (fun ev => negb (is_viewportChanged ev)) evs = true ->
  map_state_data (run py lib evs (initial py lib)) = None
  /\ station_map_figure (run py lib evs (initial py lib))
     = create_map py lib
         (selected_station_ids_data (run py lib evs (initial py lib))).
Proof.
  intros Hevs.
  apply (run_invariant py lib
           (fun st => map_state_data st = None
                      /\ station_map_figure st
                         = create_map py lib (selected_station_ids_data st))
           (fun ev => negb (is_viewportChanged ev))).
  - intros ev st Hev. apply tick_figure_unpanned. now apply negb_true_iff.
  - exact Hevs.
  - split; reflexivity.
Qed.

Lemma figure_current_X11_witness :
  station_map_figure
    (run sample_py sample_lib
       [markerClicked (marker_click "S3"); caseWindowChanged "Case 2: 2025/02/13 - 2025/02/15";
        markerClicked (marker_click "S1")]
       (initial sample_py sample_lib))
  = create_map sample_py sample_lib ["S3"; "S1"].
Proof.
  apply (figure_current_X11 sample_py sample_lib
           [markerClicked (marker_click "S3");
            caseWindowChanged "Case 2: 2025/02/13 - 2025/02/15";
            markerClicked (marker_click "S1")]).
  reflexivity.
Defined.

(** X12. As long as the case selector only takes labels of the registry,
    in every reachable state the charts shown are what the time-series
    callback returns for the current selection and the current case. *)
Theorem charts_current_X12 (py : tables) (lib : library)
    (evs : list event) :
  forallb known_case evs = true ->
  update_timeseries py lib
    (selected_station_ids_data (run py lib evs (initial py lib)))
    (case_selector_value (run py lib evs (initial py lib)))
  = Ok (timeseries_container_children
          (run py lib evs (initial py lib))).
Proof.
  intros Hevs.
  apply (run_invariant py lib (charts_current py lib) known_case).
  - intros ev st. apply tick_charts_current.
  - exact Hevs.
  - split; reflexivity.
Qed.

Lemma charts_current_X12_witness :
  update_timeseries sample_py sample_lib ["S1"] "Case 2: 2025/02/13 - 2025/02/15"
  = Ok (timeseries_container_children
          (run sample_py sample_lib
             [markerClicked (marker_click "S1");
              caseWindowChanged "Case 2: 2025/02/13 - 2025/02/15";
              viewportChanged (<["mapbox.zoom" := JNum 9%float]> ∅)]
             (initial sample_py sample_lib))).
Proof.
  apply (charts_current_X12 sample_py sample_lib
           [markerClicked (marker_click "S1");
            caseWindowChanged "Case 2: 2025/02/13 - 2025/02/15";
            viewportChanged (<["mapbox.zoom" := JNum 9%float]> ∅)]).
  vm_compute. reflexivity.
Defined.

(** ** Runs of marker clicks *)

Section Events.

Variable py : tables.
Variable lib : library.

Lemma marker_clicks_selection (ids : list string) (st : app) :
  exists suffix,
    selected_station_ids_data (run py lib (marker_clicks ids) st)
    = selected_station_ids_data st ++ suffix
    /\ (forall id, In id suffix <-> In id ids /\ ~ In id (selected_station_ids_data st)).
Proof.
  revert st. induction ids as [| id ids IH]; intros st.
  - exists []. split; [symmetry; apply app_nil_r | simpl; tauto].
  - change (run py lib (marker_clicks (id :: ids)) st)
      with (run py lib (marker_clicks ids)
              (tick py lib (markerClicked (marker_click id)) st)).
    destruct (IH (tick py lib (markerClicked (marker_click id)) st))
      as (suffix & Hsel & Hsuffix).
    rewrite Hsel. clear Hsel.
    pose proof (tick_markerClicked py lib id st) as Hstep. cbv zeta in Hstep.
    destruct (contains (selected_station_ids_data st) id) eqn:Hc.
    + apply contains_In in Hc. rewrite Hstep in *. exists suffix.
      split; [reflexivity |]. intros x. rewrite Hsuffix. simpl.
      split; [tauto |]. intros [[<- | Hx] Hno]; [contradiction | tauto].
    + apply contains_not_In in Hc. rewrite Hstep in *. exists (id :: suffix).
      split; [now rewrite <- app_assoc |].
      intros x. simpl. rewrite Hsuffix, in_app_iff. simpl.
      destruct (string_dec id x) as [<- | Hne]; [tauto |]. tauto.
Qed.

End Events.

(** X15. A sequence of marker clicks keeps the selection it started from
    as a prefix, in its order, and appends to it exactly the clicked
    stations that were not selected yet. *)
Theorem marker_clicks_append_X15 (py : tables)
    (lib : library) (ids : list string) (st : app) :
  exists suffix,
    selected_station_ids_data (run py lib (marker_clicks ids) st)
    = selected_station_ids_data st ++ suffix
    /\ (forall id, In id suffix <-> In id ids /\ ~ In id (selected_station_ids_data st)).
Proof. apply marker_clicks_selection. Qed.

(** ** The time-series callback *)

Section TimeSeries.

Variable py : tables.
Variable lib : library.

Lemma known_In (label : string) :
  existsb (String.eqb label) (map fst cases) = true <-> In label (map fst cases).
Proof.
  rewrite existsb_exists. split.
  - intros (l & Hl & E). apply String.eqb_eq in E. now subst.
  - intros Hl. exists label. split; [exact Hl | apply String.eqb_refl].
Qed.

Lemma site_chart_title (point_id selected_case : string) (rows : list Obs.row) :
  title (site_chart point_id selected_case rows) = point_id /\ rows <> []
  \/ title (site_chart point_id selected_case rows)
     = ("No data for " ++ point_id ++ " during " ++ selected_case)%string
     /\ series (site_chart point_id selected_case rows) = []
     /\ shapes (site_chart point_id selected_case rows) = []
     /\ rows = [].
Proof.
  destruct rows as [| r rows]; simpl.
  - right. repeat split.
  - left. split; [reflexivity | discriminate].
Qed.

Lemma ascending_strings (rows : list Obs.row) :
  ascending rows ->
  StronglySorted (fun a b => String.leb a b = true) (map Obs.VALIDTIME rows).
Proof.
  induction 1 as [| r rows _ IH Hhead]; simpl; constructor; [exact IH |].
  rewrite List.Forall_forall in Hhead. apply List.Forall_forall.
  intros t Ht. apply in_map_iff in Ht as (r' & <- & Hr'). now apply Hhead.
Qed.

Lemma fold_min_head (v : string) (s : list string) :
  (forall w, In w s -> String.leb v w = true) ->
  fold_left (fun m w => if String.leb m w then m else w) s v = v.
Proof.
  induction s as [| w s IH]; simpl; intros Hv; [reflexivity |].
  rewrite (Hv w (or_introl eq_refl)). apply IH. intros w' Hw'. apply Hv. now right.
Qed.

Lemma last_default (l : list string) (a d d' : string) :
  List.last (a :: l) d = List.last (a :: l) d'.
Proof.
  revert a. induction l as [| b l IH]; intros a; [reflexivity |].
  change (List.last (b :: l) d = List.last (b :: l) d'). apply IH.
Qed.

Lemma fold_max_last (v : string) (s : list string) :
  StronglySorted (fun a b => String.leb a b = true) (v :: s) ->
  fold_left (fun m w => if String.leb w m then m else w) s v = List.last s v.
Proof.
  revert v. induction s as [| w s IH]; intros v Hs; [reflexivity |].
  inversion Hs as [| ? ? Htail Hhead]; subst.
  assert (Hvw : String.leb v w = true).
  { rewrite List.Forall_forall in Hhead. apply Hhead. now left. }
  cbn [fold_left].
  assert (E : (if String.leb w v then v else w) = w).
  { destruct (String.leb w v) eqn:Hwv; [| reflexivity].
    now apply String.leb_antisym. }
  rewrite E, (IH w Htail). destruct s as [| w' s]; [reflexivity |].
  change (List.last (w :: w' :: s) v) with (List.last (w' :: s) v).
  apply last_default.
Qed.

Lemma Series_min_ascending (v : string) (s : list string) :
  StronglySorted (fun a b => String.leb a b = true) (v :: s) ->
  Series_min (v :: s) = v /\ Series_max (v :: s) = List.last (v :: s) v.
Proof.
  intros Hs. split.
  - simpl. apply fold_min_head. inversion Hs as [| ? ? _ Hhead]; subst.
    now rewrite List.Forall_forall in Hhead.
  - unfold Series_max. rewrite (fold_max_last v s Hs). destruct s; reflexivity.
Qed.

End TimeSeries.

(** X16. With an empty selection the time-series callback returns the
    invitation to pick a station, whatever the case value.  With a
    selection and a case that is not in the registry it raises KeyError.
    With a selection and a case of the registry it returns one chart per
    selected station, in the order of the selection, titled with the
    station id, or with the no-data title and then without any series or
    reference line. *)
Theorem update_timeseries_outcomes_X16 (py : tables)
    (lib : library)
    (station_ids : list string) (selected_case : string) :
  update_timeseries py lib [] selected_case = Ok (Div "地点を選んでください")
  /\ (station_ids <> [] -> ~ In selected_case (map fst cases) ->
      update_timeseries py lib station_ids selected_case = Raise KeyError)
  /\ (station_ids <> [] -> In selected_case (map fst cases) ->
      exists figs,
        update_timeseries py lib station_ids selected_case = Ok (Graphs figs)
        /\ length figs = length station_ids
        /\ forall i id, nth_error station_ids i = Some id ->
             exists ch,
               nth_error figs i = Some ch
               /\ (title ch = id
                   \/ title ch
                      = ("No data for " ++ id ++ " during " ++ selected_case)%string
                      /\ series ch = [] /\ shapes ch = [])).
Proof.
  split; [reflexivity | split].
  - intros Hids Hno. unfold update_timeseries.
    destruct station_ids as [| id ids]; [congruence |].
    rewrite cases_getitem_unknown; [reflexivity |].
    destruct (existsb (String.eqb selected_case) (map fst cases)) eqn:E; [| reflexivity].
    apply known_In in E. contradiction.
  - intros Hids Hin. apply known_In in Hin.
    destruct (cases_getitem_known cases selected_case Hin) as (w & Hw & _).
    unfold update_timeseries.
    destruct station_ids as [| id0 ids]; [congruence |].
    rewrite Hw. cbn [mbind result_bind].
    eexists. split; [reflexivity |]. split; [apply length_map |].
    intros i id Hid. rewrite nth_error_map, Hid. cbn [option_map].
    eexists. split; [reflexivity |].
    destruct (site_chart_title id selected_case
                (site_df py lib id (fst w) (snd w)))
      as [[Ht _] | (Ht & Hs & Hsh & _)]; [left | right]; auto.
Qed.

(** X17. When the rows of a chart are in ascending order of timestamp and
    there is at least one, the chart is titled with the station id, has
    the three series Obs, WT and ARC over the same timestamps with one
    value per row, and two reference lines, at 20 and at 25, that run
    from the first timestamp of the rows to the last. *)
Theorem site_chart_lines_X17 (point_id selected_case : string) (rows : list Obs.row) :
  ascending rows ->
  rows <> [] ->
  title (site_chart point_id selected_case rows) = point_id
  /\ map scatter_name (series (site_chart point_id selected_case rows))
     = ["Obs"; "WT"; "ARC"]
  /\ (forall s, In s (series (site_chart point_id selected_case rows)) ->
        x s = map Obs.VALIDTIME rows /\ length (y s) = length rows)
  /\ shapes (site_chart point_id selected_case rows)
     = [ {| x0 := hd EmptyString (map Obs.VALIDTIME rows);
            x1 := List.last (map Obs.VALIDTIME rows) EmptyString;
            y0 := 20%float; y1 := 20%float |};
         {| x0 := hd EmptyString (map Obs.VALIDTIME rows);
            x1 := List.last (map Obs.VALIDTIME rows) EmptyString;
            y0 := 25%float; y1 := 25%float |} ].
Proof.
  intros Hasc Hne. destruct rows as [| r rows]; [congruence |].
  apply ascending_strings in Hasc. cbn [map] in Hasc.
  destruct (Series_min_ascending _ _ Hasc) as [Hmin Hmax].
  cbn [site_chart title series shapes map].
  split; [reflexivity | split; [reflexivity | split]].
  - intros s [<- | [<- | [<- | []]]]; cbn [x y];
      (split; [reflexivity | cbn [length]; now rewrite length_map]).
  - cbn [map] in Hmin, Hmax. rewrite Hmin, Hmax. cbn [hd].
    rewrite (last_default _ _ _ EmptyString). reflexivity.
Qed.

Lemma site_chart_lines_X17_witness :
  shapes (site_chart "S1" "Case 2: 2025/02/13 - 2025/02/15"
            (site_df sample_py sample_lib "S1" "2025-02-13" "2025-02-15"))
  = [ {| x0 := "2025-02-13 00:00"; x1 := "2025-02-15"; y0 := 20%float; y1 := 20%float |};
      {| x0 := "2025-02-13 00:00"; x1 := "2025-02-15"; y0 := 25%float; y1 := 25%float |} ].
Proof.
  destruct (site_chart_lines_X17 "S1" "Case 2: 2025/02/13 - 2025/02/15"
              (site_df sample_py sample_lib "S1" "2025-02-13" "2025-02-15"))
    as (_ & _ & _ & ->).
  - unfold site_df. apply insertion_sort_sorts.
  - vm_compute. discriminate.
  - vm_compute. reflexivity.
Defined.

(** ** The events that leave the selection alone *)

Section Remaining.

Variable py : tables.
Variable lib : library.

Lemma tick_keeps_selection (ev : event) (st : app) :
  writes_selection ev = false ->
  selected_station_ids_data (tick py lib ev st) = selected_station_ids_data st
  /\ station_map_figure (tick py lib ev st) = station_map_figure st
  /\ station_map_clickData (tick py lib ev st) = station_map_clickData st
  /\ reset_button_n_clicks (tick py lib ev st) = reset_button_n_clicks st.
Proof.
  destruct ev; simpl; intros Hev; try discriminate; repeat split.
Qed.

End Remaining.

(** X20. Across any run of case changes and viewport changes the
    selection, the map figure, the stored click payload and the reset
    counter stay as they were: only a marker click or a reset re-draws
    the map. *)
Theorem selection_frame_X20 (py : tables) (lib : library)
    (evs : list event) (st : app) :
  forallb (fun ev => negb (writes_selection ev)) evs = true ->
  selected_station_ids_data (run py lib evs st) = selected_station_ids_data st
  /\ station_map_figure (run py lib evs st) = station_map_figure st
  /\ station_map_clickData (run py lib evs st) = station_map_clickData st
  /\ reset_button_n_clicks (run py lib evs st) = reset_button_n_clicks st.
Proof.
  intros Hevs.
  apply (run_invariant py lib
           (fun st' =>
              selected_station_ids_data st' = selected_station_ids_data st
              /\ station_map_figure st' = station_map_figure st
              /\ station_map_clickData st' = station_map_clickData st
              /\ reset_button_n_clicks st' = reset_button_n_clicks st)
           (fun ev => negb (writes_selection ev))).
  - intros ev st' Hev (H1 & H2 & H3 & H4).
    apply negb_true_iff in Hev.
    destruct (tick_keeps_selection py lib ev st' Hev) as (-> & -> & -> & ->).
    auto.
  - exact Hevs.
  - auto.
Qed.

Lemma selection_frame_X20_witness :
  mapbox_zoom
    (station_map_figure
       (run sample_py sample_lib
          [viewportChanged (<["mapbox.zoom" := JNum 9%float]> ∅);
           caseWindowChanged "Case 3: 2025/02/18 - 2025/02/20"]
          (initial sample_py sample_lib)))
  = JNum 7%float.
Proof.
  destruct (selection_frame_X20 sample_py sample_lib
              [viewportChanged (<["mapbox.zoom" := JNum 9%float]> ∅);
               caseWindowChanged "Case 3: 2025/02/18 - 2025/02/20"]
              (initial sample_py sample_lib)) as (_ & -> & _).
  - reflexivity.
  - reflexivity.
Defined.

(** ** A click on a marker, and the empty window *)

Section Markers.

Variable py : tables.
Variable lib : library.

Lemma nth_create_map (selected_ids : list string) (k : nat) (t : trace) :
  nth_error (data (create_map py lib selected_ids)) k = Some t ->
  exists df color label,
    (forall ids, nth_error (data (create_map py lib ids)) k
                 = Some (scattermapbox ids df color label))
    /\ t = scattermapbox selected_ids df color label.
Proof.
  destruct k as [| [| k]]; simpl.
  - intros [= <-]. do 3 eexists. split; [intros ids |]; reflexivity.
  - intros [= <-]. do 3 eexists. split; [intros ids |]; reflexivity.
  - destruct k; discriminate.
Qed.

End Markers.

(** X22. While no viewport is stored, a click on a marker lights that
    marker: when the figure on screen shows the markers of the current
    selection and a click carries the label of a marker of one of its
    groups, the clicked station is in the selection afterwards and, in
    the re-drawn figure, the same group has the same labels and places
    and the marker at the same index has opacity 1.0. *)
Theorem click_lights_marker_X22 (py : tables) (lib : library)
    (st : app) (k i : nat) (t : trace) (id : string) :
  map_state_data st = None ->
  data (station_map_figure st)
  = data (create_map py lib (selected_station_ids_data st)) ->
  nth_error (data (station_map_figure st)) k = Some t ->
  nth_error (text t) i = Some id ->
  In id (selected_station_ids_data
           (tick py lib (markerClicked (marker_click id)) st))
  /\ exists t',
       nth_error
         (data (station_map_figure
                  (tick py lib (markerClicked (marker_click id)) st))) k
       = Some t'
       /\ text t' = text t /\ lat t' = lat t /\ lon t' = lon t
       /\ nth_error (marker_opacity t') i = Some 1.0%float.
Proof.
  intros Hms Hfig Ht Hid.
  assert (Hin : In id (selected_station_ids_data
                         (tick py lib (markerClicked (marker_click id)) st))).
  { rewrite tick_markerClicked. cbv zeta.
    destruct (contains (selected_station_ids_data st) id) eqn:Hc.
    - now apply contains_In.
    - apply in_or_app. right. now left. }
  split; [exact Hin |].
  assert (Hdraw : station_map_figure (tick py lib (markerClicked (marker_click id)) st)
                  = create_map py lib
                      (selected_station_ids_data
                         (tick py lib (markerClicked (marker_click id)) st))).
  { unfold tick. cbn [set_clickData station_map_clickData reset_button_n_clicks
                      selected_station_ids_data].
    rewrite update_station_list_click by discriminate.
    cbn [selection_written station_map_figure selected_station_ids_data
         map_state_data set_clickData].
    rewrite Hms. reflexivity. }
  rewrite Hdraw. rewrite Hfig in Ht.
  destruct (nth_create_map py lib _ k t Ht) as (df & color & label & Hk & ->).
  eexists. split; [apply Hk |].
  split; [reflexivity | split; [reflexivity | split; [reflexivity |]]].
  destruct (scattermapbox_aligned
              (selected_station_ids_data
                 (tick py lib (markerClicked (marker_click id)) st))
              df color label) as (_ & _ & _ & Hop).
  rewrite (Hop i id Hid). apply contains_In in Hin. now rewrite Hin.
Qed.

Lemma click_lights_marker_X22_witness :
  In "S3" (selected_station_ids_data
             (tick sample_py sample_lib (markerClicked (marker_click "S3"))
                (initial sample_py sample_lib)))
  /\ exists t',
       nth_error
         (data (station_map_figure
                  (tick sample_py sample_lib (markerClicked (marker_click "S3"))
                     (initial sample_py sample_lib)))) 1
       = Some t'
       /\ text t' = ["S1"; "S3"]
       /\ nth_error (marker_opacity t') 1 = Some 1.0%float.
Proof.
  destruct (click_lights_marker_X22 sample_py sample_lib
              (initial sample_py sample_lib) 1 1
              (scattermapbox [] (high_freq_df sample_py) "red" "High Frequency") "S3")
    as (Hin & t' & Ht' & Htext & _ & _ & Hop).
  - reflexivity.
  - reflexivity.
  - reflexivity.
  - vm_compute. reflexivity.
  - split; [exact Hin |]. exists t'. split; [exact Ht' | split; [| exact Hop]].
    rewrite Htext. vm_compute. reflexivity.
Defined.

Lemma filter_none {A : Type} (f : A -> bool) (l : list A) :
  (forall a, In a l -> f a = false) -> List.filter f l = [].
Proof.
  induction l as [| a l IH]; simpl; intros Hnone; [reflexivity |].
  rewrite (Hnone a (or_introl eq_refl)). apply IH.
  intros a' Ha'. apply Hnone. now right.
Qed.

(** X23. When [sort_values] returns the rows it is given, a station has
    the no-data chart, with no series and no reference line, exactly when
    no row of the observation table has its id, a timestamp within the
    window and a forecast hour from 0 to 23. *)
Theorem empty_window_X23 (py : tables) (lib : library)
    (point_id selected_case start_date end_date : string) :
  sorts_by_VALIDTIME (sort_values lib) ->
  ((forall r, In r (data_df py) -> in_window point_id start_date end_date r = false)
   <-> site_df py lib point_id start_date end_date = [])
  /\ (site_df py lib point_id start_date end_date = [] ->
      site_chart point_id selected_case
        (site_df py lib point_id start_date end_date)
      = {| title := ("No data for " ++ point_id ++ " during " ++ selected_case)%string;
           series := []; shapes := [] |})
  /\ (site_df py lib point_id start_date end_date <> [] ->
      title (site_chart point_id selected_case
               (site_df py lib point_id start_date end_date)) = point_id
      /\ length (series (site_chart point_id selected_case
                           (site_df py lib point_id start_date end_date))) = 3
      /\ length (shapes (site_chart point_id selected_case
                           (site_df py lib point_id start_date end_date))) = 2).
Proof.
  intros Hsort.
  assert (Hperm : Permutation (site_df py lib point_id start_date end_date)
                    (List.filter (in_window point_id start_date end_date) (data_df py))).
  { unfold site_df. rewrite filter_in_window. apply Hsort. }
  split; [split | split].
  - intros Hnone.
    assert (E : List.filter (in_window point_id start_date end_date) (data_df py) = []).
    { now apply filter_none. }
    rewrite E in Hperm. apply Permutation_sym in Hperm.
    now apply Permutation_nil in Hperm.
  - intros Hempty r Hr. rewrite Hempty in Hperm.
    destruct (in_window point_id start_date end_date r) eqn:Hw; [| reflexivity].
    assert (Hin : In r (List.filter (in_window point_id start_date end_date)
                          (data_df py))) by (apply filter_In; auto).
    apply (Permutation_in _ (Permutation_sym Hperm)) in Hin. destruct Hin.
  - intros ->. reflexivity.
  - intros Hne.
    destruct (site_df py lib point_id start_date end_date); [congruence |].
    repeat split.
Qed.

Lemma empty_window_X23_witness :
  site_chart "S2" "Case 1: 2025/01/29 - 2025/02/02"
    (site_df sample_py sample_lib "S2" "2025-01-29" "2025-02-02")
  = {| title := "No data for S2 during Case 1: 2025/01/29 - 2025/02/02";
       series := []; shapes := [] |}.
Proof.
  destruct (empty_window_X23 sample_py sample_lib "S2"
              "Case 1: 2025/01/29 - 2025/02/02" "2025-01-29" "2025-02-02")
    as (_ & Hplaceholder & _).
  - apply insertion_sort_sorts.
  - apply Hplaceholder. vm_compute. reflexivity.
Defined.
